(** * DocMan: the JSON-Schema walker and Markdown renderer of
      [docsman/jsonschema/jsonschema.py]

    A shallow embedding of the module's functions over an explicit model of
    the Python values they receive, followed by the properties of the
    module's specification.

    - Python values are the JSON values a schema document is made of.  A
      [dict] is an association list in insertion order; the keys of a Python
      dict are pairwise distinct, which the theorems that depend on it assume
      explicitly ([dict_ok]).  Numbers are the integers (the module only
      compares [minItems], an item count, against zero).
    - A function that may raise returns a [result]: [Ok v] or [Raise e] with
      the class of the Python exception.
    - The collaborators outside the module ([markitup.txt.slug], the YAML
      writer of [pyserials], the Markdown helpers of [controlman], Python's
      [repr] of containers) are the fields of [Externals]. *)

From Stdlib Require Import String Ascii List ZArith Bool Lia DecimalString.
Import ListNotations.

Open Scope string_scope.
Open Scope Z_scope.

(** ** Python values, exceptions and the built-in operations the module uses *)

Module Py.

Inductive exn : Type :=
| KeyError
| IndexError
| TypeError
| AttributeError
| ValueError
| RecursionError.

Inductive result (A : Type) : Type :=
| Ok (a : A)
| Raise (e : exn).

Arguments Ok {A} a.
Arguments Raise {A} e.

Definition bind {A B : Type} (m : result A) (k : A -> result B) : result B :=
  match m with
  | Ok a => k a
  | Raise e => Raise e
  end.

Unset Elimination Schemes.
Inductive json : Type :=
| JNull
| JBool (b : bool)
| JInt (z : Z)
| JStr (s : string)
| JList (l : list json)
| JDict (d : list (string * json)).
Set Elimination Schemes.

Definition dict : Type := list (string * json).

(** [d.get(key)] on the association list: the first binding of [key]. *)
Fixpoint lookup (key : string) (d : dict) : option json :=
  match d with
  | [] => None
  | (k, v) :: rest => if String.eqb k key then Some v else lookup key rest
  end.

Definition has_key (key : string) (d : dict) : bool :=
  match lookup key d with
  | Some _ => true
  | None => false
  end.

Definition keys (d : dict) : list string := map fst d.
Definition values (d : dict) : list json := map snd d.

(** [clean[key] = val]: overwrite in place, or append a new binding. *)
Fixpoint dict_set (key : string) (val : json) (d : dict) : dict :=
  match d with
  | [] => [(key, val)]
  | (k, v) :: rest =>
      if String.eqb k key then (k, val) :: rest
      else (k, v) :: dict_set key val rest
  end.

(** [needle in hay] for two strings. *)
Fixpoint is_substring (needle hay : string) : bool :=
  if String.prefix needle hay then true
  else match hay with
       | EmptyString => false
       | String _ rest => is_substring needle rest
       end.

Definition is_str (key : string) (v : json) : bool :=
  match v with
  | JStr s => String.eqb s key
  | _ => false
  end.

(** [key in v] for a string [key]: key membership for a dict, element
    membership for a list, substring test for a string; the other values
    are not iterable. *)
Definition py_contains (v : json) (key : string) : result bool :=
  match v with
  | JDict d => Ok (has_key key d)
  | JList l => Ok (existsb (is_str key) l)
  | JStr s => Ok (is_substring key s)
  | JNull | JBool _ | JInt _ => Raise TypeError
  end.

(** [v[key]] for a string [key]. *)
Definition py_getitem (v : json) (key : string) : result json :=
  match v with
  | JDict d =>
      match lookup key d with
      | Some x => Ok x
      | None => Raise KeyError
      end
  | _ => Raise TypeError
  end.

Definition py_len (v : json) : result nat :=
  match v with
  | JDict d => Ok (List.length d)
  | JList l => Ok (List.length l)
  | JStr s => Ok (String.length s)
  | JNull | JBool _ | JInt _ => Raise TypeError
  end.

Fixpoint chars (s : string) : list json :=
  match s with
  | EmptyString => []
  | String c rest => JStr (String c EmptyString) :: chars rest
  end.

(** The elements a [for] loop over [v] visits. *)
Definition py_iter (v : json) : result (list json) :=
  match v with
  | JList l => Ok l
  | JDict d => Ok (map JStr (keys d))
  | JStr s => Ok (chars s)
  | JNull | JBool _ | JInt _ => Raise TypeError
  end.

Definition isinstance_dict (v : json) : bool :=
  match v with JDict _ => true | _ => false end.

Definition isinstance_list (v : json) : bool :=
  match v with JList _ => true | _ => false end.

(** [s.split(sep)] for a one-character separator: never empty, one more
    piece than there are separators. *)
Fixpoint split (sep : ascii) (s : string) : list string :=
  match s with
  | EmptyString => [EmptyString]
  | String c rest =>
      if Ascii.eqb c sep then EmptyString :: split sep rest
      else match split sep rest with
           | [] => [String c EmptyString]
           | piece :: pieces => String c piece :: pieces
           end
  end.

(** [l[i]] with Python's negative indices. *)
Definition index {A : Type} (l : list A) (i : Z) : result A :=
  let n := Z.of_nat (List.length l) in
  let j := if i <? 0 then i + n else i in
  if (j <? 0) || (n <=? j) then Raise IndexError
  else match nth_error l (Z.to_nat j) with
       | Some x => Ok x
       | None => Raise IndexError
       end.

(** [sep.join(pieces)]. *)
Fixpoint join (sep : string) (pieces : list string) : string :=
  match pieces with
  | [] => EmptyString
  | [p] => p
  | p :: rest => p ++ sep ++ join sep rest
  end.

(** [s.removesuffix(suffix)]. *)
Fixpoint removesuffix (suffix s : string) : string :=
  if String.eqb s suffix then EmptyString
  else match s with
       | EmptyString => EmptyString
       | String c rest => String c (removesuffix suffix rest)
       end.

(** [d.get(key, default)]; only a dict has the method. *)
Definition py_get (v : json) (key : string) (default : json) : result json :=
  match v with
  | JDict d =>
      match lookup key d with
      | Some x => Ok x
      | None => Ok default
      end
  | _ => Raise AttributeError
  end.

(** [v > 0]: integers and booleans (Python's [True] is [1]) compare with an
    integer, the other values do not. *)
Definition py_gt0 (v : json) : result bool :=
  match v with
  | JInt z => Ok (0 <? z)
  | JBool b => Ok b
  | _ => Raise TypeError
  end.

Definition str_of_nat (n : nat) : string :=
  NilZero.string_of_uint (Nat.to_uint n).

Definition str_of_Z (z : Z) : string :=
  NilZero.string_of_int (Z.to_int z).

(** [sep in s] for a one-character [sep]. *)
Fixpoint contains_char (sep : ascii) (s : string) : bool :=
  match s with
  | EmptyString => false
  | String c rest => Ascii.eqb c sep || contains_char sep rest
  end.

End Py.

Export Py.

Declare Scope result_scope.
Delimit Scope result_scope with result.
Notation "x <- m ;; k" := (bind m (fun x => k))
  (at level 61, m at next level, right associativity) : result_scope.
Open Scope result_scope.

(** ** The collaborators outside the module *)

Class Externals : Type := {
  (** [markitup.txt.slug] *)
  slug : string -> string;
  (** [pyserials.write.to_yaml_string(data, end_of_file_newline=False)] *)
  to_yaml_string : json -> string;
  (** [markdown.comma_list(items, item_as_code, as_html)] *)
  comma_list : list string -> bool -> bool -> string;
  (** [markdown.normal_list(items, item_as_code)] *)
  normal_list : list string -> bool -> string;
  (** [markdown.code_block(text)] *)
  code_block : string -> string;
  (** Python's [str] of a list or a dict *)
  py_repr : json -> string
}.

(** ** The module [jsonschema.py] *)

Module JsonSchema.

Definition INLINE_MAX_LINE_LENGTH : Z := 50.

Definition newline : string := String (ascii_of_nat 10) EmptyString.

Definition structural_keys : list string :=
  ["properties"; "additionalProperties"; "items"; "not"; "if"; "then"; "else";
   "anyOf"; "oneOf"; "allOf"].

Definition in_list (key : string) (l : list string) : bool :=
  existsb (String.eqb key) l.

(** [for x in l: if body(x): return True] followed by [return False]. *)
Fixpoint first_true {A : Type} (body : A -> result bool) (l : list A)
  : result bool :=
  match l with
  | [] => Ok false
  | x :: rest =>
      b <- body x ;;
      if b then Ok true else first_true body rest
  end.

(** The second component is what a loop over the returned value visits:
    for the composition keywords the source returns [schema[key]] itself. *)
Definition get_subschemas (schema : json) (key : string)
  : result (list string * list json) :=
  if String.eqb key "properties" then
    v <- py_getitem schema key ;;
    match v with
    | JDict props => Ok (keys props, values props)
    | _ => Raise AttributeError
    end
  else if String.eqb key "additionalProperties" then
    v <- py_getitem schema key ;;
    if isinstance_dict v then Ok (["*"], [v]) else Ok ([], [])
  else if String.eqb key "items" then
    v <- py_getitem schema key ;;
    Ok (["[i]"], [v])
  else if in_list key ["not"; "if"; "then"; "else"] then
    v <- py_getitem schema key ;;
    Ok ([key], [v])
  else
    v <- py_getitem schema key ;;
    n <- py_len v ;;
    subs <- py_iter v ;;
    Ok (map (fun i => key ++ "[" ++ str_of_nat i ++ "]") (seq 1 n), subs).

(** The recursion of the source goes one level deeper only while
    [_rec < max_nesting]; [fuel] bounds the number of levels, and
    [needs_separate_section] starts it at [max_nesting - _rec]. *)
Fixpoint needs_separate_section_rec (fuel : nat) (schema : json)
    (max_nesting _rec : Z) {struct fuel} : result bool :=
  has_ref <- py_contains schema "$ref" ;;
  if has_ref then Ok false
  else
    first_true
      (fun key =>
         present <- py_contains schema key ;;
         if present then
           if _rec >=? max_nesting then Ok true
           else
             match fuel with
             | O => Raise RecursionError
             | S fuel' =>
                 subs <- get_subschemas schema key ;;
                 first_true
                   (fun subschema =>
                      needs_separate_section_rec fuel' subschema
                        max_nesting (_rec + 1))
                   (snd subs)
             end
         else Ok false)
      structural_keys.

Definition needs_separate_section (schema : json) (max_nesting _rec : Z)
  : result bool :=
  needs_separate_section_rec (Z.to_nat (max_nesting - _rec)) schema
    max_nesting _rec.

Definition array_items_are_required (schema : json) : result bool :=
  present <- py_contains schema "minItems" ;;
  if present then
    v <- py_getitem schema "minItems" ;;
    py_gt0 v
  else Ok false.

Definition subschema_is_required (schema : json) (key sub_key : string)
  : result bool :=
  if String.eqb key "properties" then
    required <- py_get schema "required" (JList []) ;;
    py_contains required sub_key
  else if String.eqb key "items" then array_items_are_required schema
  else Ok false.

Definition metadata_keys : list string :=
  ["title"; "description"; "examples"; "root_key"; "default_auto"; "default"].

(** The loop over [schema.items()] of a dict, from the dict [clean] built so
    far. *)
Definition clean_dict_items (clean_schema : json -> bool -> result json)
    (is_prop_dict : bool) : dict -> dict -> result dict :=
  fix items (d clean : dict) {struct d} : result dict :=
    match d with
    | [] => Ok clean
    | (key, val) :: rest =>
        if in_list key metadata_keys && negb is_prop_dict then
          items rest clean
        else if isinstance_dict val || isinstance_list val then
          c <- clean_schema val
                 (isinstance_dict val && String.eqb key "properties") ;;
          items rest (dict_set key c clean)
        else items rest (dict_set key val clean)
    end.

(** The loop over the items of a list, from the list [clean] built so far. *)
Definition clean_list_items (clean_schema : json -> bool -> result json)
  : list json -> list json -> result (list json) :=
  fix each (l clean : list json) {struct l} : result (list json) :=
    match l with
    | [] => Ok clean
    | item :: rest =>
        if isinstance_dict item || isinstance_list item then
          c <- clean_schema item false ;;
          each rest (clean ++ [c])%list
        else each rest (clean ++ [item])%list
    end.

Fixpoint clean_schema (schema : json) (is_prop_dict : bool) {struct schema}
  : result json :=
  match schema with
  | JDict d =>
      clean <- clean_dict_items clean_schema is_prop_dict d [] ;;
      Ok (JDict clean)
  | JList l =>
      clean <- clean_list_items clean_schema l [] ;;
      Ok (JList clean)
  | JNull | JBool _ | JInt _ | JStr _ => Raise ValueError
  end.

Definition ref_name (ref : string) : result string :=
  let parts := split "#" ref in
  if Nat.eqb (List.length parts) 1 then
    path <- index parts 0 ;;
    index (split "." path) (-2)
  else
    fragment <- index parts (-1) ;;
    index (split "/" fragment) (-1).

(** [ref_name(ref)] for the value found under ["$ref"]: only a string has
    the [split] method. *)
Definition ref_name_of (ref : json) : result string :=
  match ref with
  | JStr s => ref_name s
  | _ => Raise AttributeError
  end.

Definition _text_can_be_inline (text : string) : bool :=
  negb (is_substring newline text)
  && (Z.of_nat (String.length text) <=? INLINE_MAX_LINE_LENGTH).

Definition sum_len (texts : list string) : Z :=
  fold_right (fun e acc => Z.of_nat (String.length e) + acc) 0 texts.

Section Renderers.

Context {ext : Externals}.

(** What an f-string puts for [{v}]. *)
Definition py_str (v : json) : string :=
  match v with
  | JStr s => s
  | JInt z => str_of_Z z
  | JBool true => "True"
  | JBool false => "False"
  | JNull => "None"
  | JList _ | JDict _ => py_repr v
  end.

Definition code (text : string) : string := "`" ++ text ++ "`".

Definition link (text tag : string) : string :=
  "[" ++ code text ++ "](#" ++ tag ++ ")".

(** The three statements the renderers share for a reference:
    [ref = node["$ref"]], [ref_tag = slug(f"{tag_prefix_refs}-{ref}")] and
    the link [f"[`{ref_name(ref)}`](#{ref_tag})"]. *)
Definition ref_link (node : json) (tag_prefix_refs : string) : result string :=
  ref <- py_getitem node "$ref" ;;
  let ref_tag := slug (tag_prefix_refs ++ "-" ++ py_str ref) in
  name <- ref_name_of ref ;;
  Ok (link name ref_tag).

Fixpoint examples_loop (examples : list json) (examples_text : list string)
    (all_can_be_inline : bool) : list string * bool :=
  match examples with
  | [] => (examples_text, all_can_be_inline)
  | example :: rest =>
      let example_str :=
        removesuffix (newline ++ "...") (to_yaml_string example) in
      examples_loop rest (examples_text ++ [example_str])%list
        (if _text_can_be_inline example_str then all_can_be_inline else false)
  end.

Definition examples_to_md (schema : json) (key : string)
  : result (option string * bool) :=
  present <- py_contains schema key ;;
  if negb present then Ok (None, false)
  else
    examples <- py_getitem schema key ;;
    items <- py_iter examples ;;
    let '(examples_text, all_can_be_inline) := examples_loop items [] true in
    let total_can_be_inline :=
      sum_len examples_text <=? INLINE_MAX_LINE_LENGTH in
    if all_can_be_inline && total_can_be_inline then
      Ok (Some (comma_list examples_text true false), true)
    else if all_can_be_inline then
      Ok (Some (normal_list examples_text true), false)
    else Ok (Some (join newline (map code_block examples_text)), false).

(** The loop of [if_to_md]; leaving the loop with [break] returns the
    tokens collected so far. *)
Fixpoint if_loop (schema : json) (fullpath tag_prefix tag_prefix_refs : string)
    (todo : list string) (output : list string) : result (list string) :=
  match todo with
  | [] => Ok output
  | key :: rest =>
      present <- py_contains schema key ;;
      if negb present then Ok output
      else
        let output := (output ++ [key])%list in
        sub <- py_getitem schema key ;;
        has_ref <- py_contains sub "$ref" ;;
        if has_ref then
          l <- ref_link sub tag_prefix_refs ;;
          if_loop schema fullpath tag_prefix tag_prefix_refs rest
            (output ++ [l])%list
        else
          let tag := slug (tag_prefix ++ "-" ++ fullpath ++ "-" ++ key) in
          if_loop schema fullpath tag_prefix tag_prefix_refs rest
            (output ++ [link key tag])%list
  end.

(** The parameter [key] of the source is overwritten by the loop variable
    before it is read. *)
Definition if_to_md (schema : json)
    (fullpath tag_prefix tag_prefix_refs key : string)
  : result (option string * bool) :=
  output <- if_loop schema fullpath tag_prefix tag_prefix_refs
              ["if"; "then"; "else"] [] ;;
  match output with
  | [] => Ok (None, false)
  | _ => Ok (Some (join " " output), true)
  end.

Definition type_to_md (schema : json) (key tag_prefix_refs : string)
  : result (option string * bool) :=
  has_ref <- py_contains schema "$ref" ;;
  if has_ref then
    l <- ref_link schema tag_prefix_refs ;;
    Ok (Some l, true)
  else
    dtype <- py_get schema key JNull ;;
    match dtype with
    | JStr s => Ok (Some (code s), true)
    | JList l => Ok (Some (join " or " (map (fun v => code (py_str v)) l)), true)
    | JNull =>
        composed <- first_true (py_contains schema)
                      ["anyOf"; "oneOf"; "allOf"; "not"; "if"] ;;
        if composed then Ok (Some "`complex`", true)
        else Ok (Some "`any`", true)
    | JBool _ | JInt _ | JDict _ => Raise ValueError
    end.

End Renderers.

End JsonSchema.

Export JsonSchema.

(** ** Notions of the specification *)

Module Spec.

(** [name] is the last [sep]-delimited piece of [s]. *)
Definition last_piece (sep : ascii) (s name : string) : Prop :=
  contains_char sep name = false
  /\ (s = name \/ exists before, s = before ++ String sep name).

(** The sub-schemas the data model puts under a structural keyword whose
    value is [v]: the values of a [properties] map, the node (or nothing,
    for a boolean) of [additionalProperties], the node of [items], [not],
    [if], [then] and [else], the elements of [anyOf], [oneOf] and [allOf].
    [None] when [v] has another shape. *)
Definition children (key : string) (v : json) : option (list json) :=
  if String.eqb key "properties" then
    match v with
    | JDict props => Some (values props)
    | _ => None
    end
  else if String.eqb key "additionalProperties" then
    match v with
    | JDict _ => Some [v]
    | JBool _ => Some []
    | _ => None
    end
  else if in_list key ["anyOf"; "oneOf"; "allOf"] then
    match v with
    | JList l => Some l
    | _ => None
    end
  else Some [v].

(** [s] is a schema node, and so are, down to [n] levels below it, the
    sub-schemas under its structural keywords. *)
Fixpoint wf_upto (n : nat) (s : json) : bool :=
  match s with
  | JDict d =>
      match n with
      | O => true
      | S n' =>
          forallb
            (fun key =>
               match lookup key d with
               | None => true
               | Some v =>
                   match children key v with
                   | Some subs => forallb (wf_upto n') subs
                   | None => false
                   end
               end)
            structural_keys
      end
  | _ => false
  end.

(** The structural keywords of the node [s] are nested strictly within [n]
    levels: a node at depth [n] or more (the root is at depth 0) has none. *)
Fixpoint nested_within (n : nat) (s : json) : bool :=
  match s with
  | JDict d =>
      forallb
        (fun key =>
           match lookup key d with
           | None => true
           | Some v =>
               match n with
               | O => false
               | S n' =>
                   match children key v with
                   | Some subs => forallb (nested_within n') subs
                   | None => false
                   end
               end
           end)
        structural_keys
  | _ => false
  end.

(** No node down to [n] levels below [s] has a composition keyword. *)
Fixpoint no_composition (n : nat) (s : json) : bool :=
  match s with
  | JDict d =>
      negb (has_key "anyOf" d) && negb (has_key "oneOf" d)
      && negb (has_key "allOf" d)
      && match n with
         | O => true
         | S n' =>
             forallb
               (fun key =>
                  match lookup key d with
                  | None => true
                  | Some v =>
                      match children key v with
                      | Some subs => forallb (no_composition n') subs
                      | None => true
                      end
                  end)
               structural_keys
         end
  | _ => true
  end.

(** The structural nesting of [s] reaches, [n] levels down, a node that has
    a structural keyword.  With [through_refs = false] the path only goes
    through nodes without ["$ref"] and ends at such a node. *)
Fixpoint reaches (through_refs : bool) (n : nat) (s : json) : bool :=
  match s with
  | JDict d =>
      (through_refs || negb (has_key "$ref" d))
      && existsb
           (fun key =>
              match lookup key d with
              | None => false
              | Some v =>
                  match n with
                  | O => true
                  | S n' =>
                      match children key v with
                      | Some subs => existsb (reaches through_refs n') subs
                      | None => false
                      end
                  end
              end)
           structural_keys
  | _ => false
  end.

(** [l] has no duplicate. *)
Fixpoint distinct (l : list string) : bool :=
  match l with
  | [] => true
  | x :: rest => negb (in_list x rest) && distinct rest
  end.

(** The keys of every dict inside [s] are pairwise distinct, as they are in
    a Python value. *)
Fixpoint dict_ok (s : json) : bool :=
  match s with
  | JDict d => distinct (keys d) && forallb (fun kv => dict_ok (snd kv)) d
  | JList l => forallb dict_ok l
  | _ => true
  end.

(** [clean_schema] as one pass without the intermediate dict: the entries
    that are kept, in order, with their values cleaned. *)
Fixpoint clean_pure (s : json) (is_prop_dict : bool) : json :=
  match s with
  | JDict d =>
      JDict
        (flat_map
           (fun kv =>
              if in_list (fst kv) metadata_keys && negb is_prop_dict then []
              else
                [(fst kv,
                  clean_pure (snd kv)
                    (isinstance_dict (snd kv)
                     && String.eqb (fst kv) "properties"))])
           d)
  | JList l => JList (map (fun item => clean_pure item false) l)
  | _ => s
  end.

(** Cleaning as the specification words it.  A schema node loses its
    documentation-metadata keys and keeps the others, their values cleaned
    in turn; the value of [properties] is a properties map ([props_map]),
    whose keys are property names and are all kept, each with its schema
    cleaned as a normal schema. *)
Fixpoint clean_spec (s : json) (props_map : bool) : json :=
  match s with
  | JDict d =>
      JDict
        (flat_map
           (fun kv =>
              if props_map then [(fst kv, clean_spec (snd kv) false)]
              else if in_list (fst kv) metadata_keys then []
              else
                [(fst kv,
                  clean_spec (snd kv)
                    (isinstance_dict (snd kv)
                     && String.eqb (fst kv) "properties"))])
           d)
  | JList l => JList (map (fun item => clean_spec item false) l)
  | _ => s
  end.

(** On the dict or list [s], [clean_schema] raises nothing and returns
    [clean_pure]. *)
Definition cleans_as_pure (s : json) : Prop :=
  forall is_prop_dict,
    isinstance_dict s || isinstance_list s = true ->
    dict_ok s = true ->
    clean_schema s is_prop_dict = Ok (clean_pure s is_prop_dict).

(** No properties map inside [s] declares a property that is itself named
    ["properties"] with a dict for schema; [props_map] tells whether [s] is
    a properties map. *)
Fixpoint plain_properties (s : json) (props_map : bool) : bool :=
  match s with
  | JDict d =>
      forallb
        (fun kv =>
           if props_map then
             negb (isinstance_dict (snd kv) && String.eqb (fst kv) "properties")
             && plain_properties (snd kv) false
           else
             in_list (fst kv) metadata_keys
             || plain_properties (snd kv)
                  (isinstance_dict (snd kv)
                   && String.eqb (fst kv) "properties"))
        d
  | JList l => forallb (fun item => plain_properties item false) l
  | _ => true
  end.

(** Every key of every dict inside [s] is one of [allowed]. *)
Fixpoint only_keys (allowed : list string) (s : json) : bool :=
  match s with
  | JDict d =>
      forallb (fun kv => in_list (fst kv) allowed && only_keys allowed (snd kv)) d
  | JList l => forallb (only_keys allowed) l
  | _ => true
  end.

(** The keywords that make a node without [type] a ["complex"] one. *)
Definition composition_or_condition : list string :=
  ["anyOf"; "oneOf"; "allOf"; "not"; "if"].

Definition isinstance_str (v : json) : bool :=
  match v with JStr _ => true | _ => false end.

(** The serialized form of one example, as [examples_to_md] computes it. *)
Definition example_text {ext : Externals} (example : json) : string :=
  removesuffix (newline ++ "...") (to_yaml_string example).

(** A stand-in for the collaborators, to run the renderers on concrete
    schemas: the slug of a text is the text, a string serializes to itself,
    list items are joined as Markdown would show them. *)
Definition demo_ext : Externals := {|
  slug := fun text => text;
  to_yaml_string :=
    fun v =>
      match v with
      | JStr s => s
      | JInt z => str_of_Z z
      | JBool true => "true"
      | JBool false => "false"
      | _ => "null"
      end;
  comma_list :=
    fun items item_as_code _ =>
      join ", " (if item_as_code then map code items else items);
  normal_list :=
    fun items item_as_code =>
      join newline
        (map (fun i => "- " ++ (if item_as_code then code i else i)) items);
  code_block := fun text => "```" ++ newline ++ text ++ newline ++ "```";
  py_repr := fun _ => "..."
|}.

End Spec.

Export Spec.

(** ** The other renderers of [jsonschema.py] *)

(** What the remaining renderers need from outside the module. *)
Class MoreExternals : Type := {
  (** [markdown.comma_list(items, item_as_code, as_html)] when [items] is
      not a list of strings *)
  comma_list_of : json -> bool -> bool -> string;
  (** [markdown.normal_list(items, item_as_code)] when [items] is not a list
      of strings *)
  normal_list_of : json -> bool -> string;
  (** [pyserials.write.to_yaml_string(data)], with its default arguments *)
  to_yaml_document : json -> string;
  (** Python's [str.strip()] *)
  strip : string -> string
}.

Module JsonSchemaRenderers.

(** [sum(len(e) for e in items)]: the first item without a length raises. *)
Fixpoint sum_len_values (items : list json) : result Z :=
  match items with
  | [] => Ok 0
  | e :: rest =>
      n <- py_len e ;;
      total <- sum_len_values rest ;;
      Ok (Z.of_nat n + total)
  end.

(** The strings of a list of strings. *)
Fixpoint strings_of_items (items : list json) : option (list string) :=
  match items with
  | [] => Some []
  | JStr s :: rest =>
      match strings_of_items rest with
      | Some l => Some (s :: l)
      | None => None
      end
  | _ => None
  end.

Definition strings_of (array : json) : option (list string) :=
  match array with
  | JList items => strings_of_items items
  | _ => None
  end.

(** [s.replace(old, new)] for two one-character strings. *)
Fixpoint replace_char (old new : ascii) (s : string) : string :=
  match s with
  | EmptyString => EmptyString
  | String c rest =>
      String (if Ascii.eqb c old then new else c) (replace_char old new rest)
  end.

Section MoreRenderers.

Context {ext : Externals} {more : MoreExternals}.

(** The one Python function [comma_list], at the two types its argument
    has here. *)
Definition md_comma_list (array : json) (item_as_code as_html : bool)
  : string :=
  match strings_of array with
  | Some items => comma_list items item_as_code as_html
  | None => comma_list_of array item_as_code as_html
  end.

Definition md_normal_list (array : json) (item_as_code : bool) : string :=
  match strings_of array with
  | Some items => normal_list items item_as_code
  | None => normal_list_of array item_as_code
  end.

Definition make_code_list (array : json) : result (string * bool) :=
  items <- py_iter array ;;
  array_text_len <- sum_len_values items ;;
  if array_text_len <? INLINE_MAX_LINE_LENGTH then
    Ok (md_comma_list array true false, true)
  else Ok (md_normal_list array true, false).

Definition required_to_md (schema : json) (key : string)
  : result (option string * bool) :=
  present <- py_contains schema key ;;
  if negb present then Ok (None, false)
  else
    required <- py_getitem schema "required" ;;
    r <- make_code_list required ;;
    Ok (Some (fst r), snd r).

Definition enum_to_md (schema : json) (key : string)
  : result (option string * bool) :=
  present <- py_contains schema key ;;
  if negb present then Ok (None, false)
  else
    array <- py_getitem schema key ;;
    r <- make_code_list array ;;
    Ok (Some (fst r), snd r).

Definition scalar_to_md (schema : json) (key : string)
  : result (option string * bool) :=
  present <- py_contains schema key ;;
  if negb present then Ok (None, false)
  else
    value <- py_getitem schema key ;;
    let value :=
      match value with
      | JBool true => JStr "true"
      | JBool false => JStr "false"
      | _ => value
      end in
    Ok (Some (code (py_str value)), true).

(** [tag_add_props] is a string or [None]; the empty string is as false as
    [None]. *)
Definition additional_properties_to_md (schema : json) (key : string)
    (tag_add_props : option string) : result (option string * bool) :=
  value <- py_get schema key JNull ;;
  match value with
  | JBool false => Ok (Some "`false`", true)
  | JBool true => Ok (Some "`any`", true)
  | JNull =>
      composed <- first_true (py_contains schema)
                    ["$ref"; "anyOf"; "oneOf"; "allOf"; "not"; "if"] ;;
      if composed then Ok (None, false)
      else
        dtype <- py_get schema "type" JNull ;;
        if is_str "object" dtype then Ok (Some "`any`", true)
        else Ok (None, false)
  | JInt _ | JStr _ | JList _ | JDict _ =>
      match tag_add_props with
      | Some (String c tag) =>
          Ok (Some ("[`true`](#" ++ String c tag ++ ")"), true)
      | Some EmptyString | None => Ok (Some "[`true`]", true)
      end
  end.

Definition not_to_md (schema : json)
    (fullpath tag_prefix tag_prefix_refs key : string)
  : result (option string * bool) :=
  present <- py_contains schema key ;;
  if negb present then Ok (None, false)
  else
    _not <- py_getitem schema key ;;
    has_ref <- py_contains _not "$ref" ;;
    if has_ref then
      l <- ref_link _not tag_prefix_refs ;;
      Ok (Some l, true)
    else
      let tag := slug (tag_prefix ++ "-" ++ fullpath ++ "-not") in
      Ok (Some (link "not" tag), true).

(** The loop of [some_of_to_md] over [enumerate(some_of)]; [idx] is the
    1-based position of the first member of [todo]. *)
Fixpoint some_of_loop (fullpath tag_prefix tag_prefix_refs key : string)
    (todo : list json) (idx : nat) (outputs : list string)
  : result (list string) :=
  match todo with
  | [] => Ok outputs
  | subschema :: rest =>
      has_ref <- py_contains subschema "$ref" ;;
      if has_ref then
        l <- ref_link subschema tag_prefix_refs ;;
        some_of_loop fullpath tag_prefix tag_prefix_refs key rest (S idx)
          (outputs ++ [l])%list
      else
        let tag :=
          slug (tag_prefix ++ "-" ++ fullpath ++ "-" ++ key ++ "-"
                ++ str_of_nat idx) in
        let title := key ++ "[" ++ str_of_nat idx ++ "]" in
        some_of_loop fullpath tag_prefix tag_prefix_refs key rest (S idx)
          (outputs ++ [link title tag])%list
  end.

Definition some_of_to_md (schema : json)
    (fullpath tag_prefix tag_prefix_refs key : string)
  : result (option string * bool) :=
  present <- py_contains schema key ;;
  if negb present then Ok (None, false)
  else
    some_of <- py_getitem schema key ;;
    members <- py_iter some_of ;;
    outputs <- some_of_loop fullpath tag_prefix tag_prefix_refs key
                 members 1 [] ;;
    Ok (Some (comma_list outputs false false), true).

Definition default_to_md (schema : json) (key key_auto : string)
  : result (option string * bool) :=
  present <- py_contains schema key ;;
  if present then
    value <- py_getitem schema key ;;
    let text := removesuffix (newline ++ "...") (to_yaml_string value) in
    let inline_ok := _text_can_be_inline text in
    Ok (Some (if inline_ok then code text else code_block text), inline_ok)
  else
    present_auto <- py_contains schema key_auto ;;
    if present_auto then
      value <- py_getitem schema key_auto ;;
      match value with
      | JStr s =>
          let text := replace_char "010" " " (strip s) in
          Ok (Some text, _text_can_be_inline text)
      | _ => Raise AttributeError
      end
    else Ok (None, false).


End MoreRenderers.

End JsonSchemaRenderers.

Export JsonSchemaRenderers.

(** ** Further notions for the statements *)

Module SpecMore.

(** The keys of [todo] up to the first one that [d] does not have. *)
Fixpoint present_prefix (d : dict) (todo : list string) : list string :=
  match todo with
  | [] => []
  | key :: rest => if has_key key d then key :: present_prefix d rest else []
  end.

(** [clean_schema] keeps the entry of [key]. *)
Definition kept (is_prop_dict : bool) (key : string) : bool :=
  negb (in_list key metadata_keys && negb is_prop_dict).

(** What one entry of a dict becomes in [clean_pure]. *)
Definition clean_entry (is_prop_dict : bool) (kv : string * json) : dict :=
  if in_list (fst kv) metadata_keys && negb is_prop_dict then []
  else
    [(fst kv,
      clean_pure (snd kv)
        (isinstance_dict (snd kv) && String.eqb (fst kv) "properties"))].

(** The keys that keep [additional_properties_to_md] silent when the node
    says nothing about additional properties. *)
Definition reference_or_composition : list string :=
  ["$ref"; "anyOf"; "oneOf"; "allOf"; "not"; "if"].

(** The [type] of the node is the string ["object"]. *)
Definition type_is_object (d : dict) : bool :=
  match lookup "type" d with
  | Some v => is_str "object" v
  | None => false
  end.

(** The four kinds of value [additional_properties_to_md] tells apart. *)
Inductive additional_kind (d : dict) : Prop :=
| AdditionalUnset :
    lookup "additionalProperties" d = None
    \/ lookup "additionalProperties" d = Some JNull ->
    additional_kind d
| AdditionalBool (b : bool) :
    lookup "additionalProperties" d = Some (JBool b) -> additional_kind d
| AdditionalValue (v : json) :
    lookup "additionalProperties" d = Some v ->
    v <> JNull -> (forall b, v <> JBool b) -> additional_kind d.

(** A value [len] does not apply to. *)
Definition unsized (v : json) : bool :=
  match v with
  | JNull | JBool _ | JInt _ => true
  | _ => false
  end.

(** A stand-in for the collaborators of the remaining renderers. *)
Definition demo_more : MoreExternals := {|
  comma_list_of := fun _ _ _ => "...";
  normal_list_of := fun _ _ => "...";
  to_yaml_document := fun v => @to_yaml_string demo_ext v ++ newline;
  strip := fun s => s
|}.

End SpecMore.

Export SpecMore.

(** ** Proof automation *)

Ltac break_match :=
  match goal with
  | |- context [match ?x with _ => _ end] => destruct x eqn:?
  | H : context [match ?x with _ => _ end] |- _ => destruct x eqn:?
  end.

(** ** Strings and lists: [split] and [index] *)

Section SplitFacts.

Variable sep : ascii.

Lemma split_not_nil (s : string) : split sep s <> [].
Proof.
  destruct s as [|c rest]; simpl; [discriminate|].
  destruct (Ascii.eqb c sep); [discriminate|].
  destruct (split sep rest); discriminate.
Qed.

Lemma contains_char_app (a b : string) :
  contains_char sep (a ++ b) = contains_char sep a || contains_char sep b.
Proof.
  induction a as [|c a IH]; simpl; [reflexivity|].
  rewrite IH. apply orb_assoc.
Qed.

Lemma contains_char_sep_cons (b : string) :
  contains_char sep (String sep b) = true.
Proof. simpl. rewrite Ascii.eqb_refl. reflexivity. Qed.

(** Every string ends with a piece free of the separator; the pieces before
    it are those of what precedes its separator. *)
Lemma split_snoc (s : string) :
  exists pieces name,
    split sep s = (pieces ++ [name])%list
    /\ contains_char sep name = false
    /\ ((pieces = [] /\ s = name)
        \/ exists before,
             s = before ++ String sep name /\ split sep before = pieces).
Proof.
  induction s as [|c rest IH].
  - exists [], EmptyString. simpl. auto.
  - destruct IH as (pieces & name & Hsplit & Hfree & Hshape).
    simpl. destruct (Ascii.eqb c sep) eqn:Hc.
    + apply Ascii.eqb_eq in Hc. subst c.
      exists (EmptyString :: pieces), name.
      rewrite Hsplit. split; [reflexivity|]. split; [exact Hfree|].
      right. destruct Hshape as [[Hnil Hs] | (before & Hs & Hb)].
      * exists EmptyString. subst. simpl. auto.
      * exists (String sep before). subst rest. simpl.
        rewrite Ascii.eqb_refl, Hb. auto.
    + rewrite Hsplit.
      destruct Hshape as [[Hnil Hs] | (before & Hs & Hb)].
      * subst pieces rest. exists [], (String c name). simpl.
        rewrite Hc, Hfree. auto.
      * destruct pieces as [|p ps].
        { exfalso. exact (split_not_nil before Hb). }
        exists (String c p :: ps), name. simpl.
        split; [reflexivity|]. split; [exact Hfree|].
        right. exists (String c before). subst rest. simpl.
        rewrite Hc, Hb. auto.
Qed.

Lemma split_free (s : string) :
  contains_char sep s = false -> split sep s = [s].
Proof.
  induction s as [|c rest IH]; simpl; [reflexivity|].
  intros H. apply orb_false_iff in H. destruct H as [Hc Hrest].
  rewrite Hc, (IH Hrest). reflexivity.
Qed.

Lemma split_many (s : string) :
  contains_char sep s = true ->
  exists before name,
    s = before ++ String sep name
    /\ contains_char sep name = false
    /\ split sep s = (split sep before ++ [name])%list.
Proof.
  intros Hs.
  destruct (split_snoc s) as (pieces & name & Hsplit & Hfree & Hshape).
  destruct Hshape as [[_ Heq] | (before & Heq & Hb)].
  - subst s. congruence.
  - exists before, name. subst pieces. auto.
Qed.

Lemma last_piece_exists (s : string) :
  exists pieces name,
    split sep s = (pieces ++ [name])%list /\ last_piece sep s name.
Proof.
  destruct (split_snoc s) as (pieces & name & Hsplit & Hfree & Hshape).
  exists pieces, name. split; [exact Hsplit|]. split; [exact Hfree|].
  destruct Hshape as [[_ Heq] | (before & Heq & _)]; eauto.
Qed.

End SplitFacts.

Lemma index_first {A : Type} (x : A) (l : list A) : index (x :: l) 0 = Ok x.
Proof.
  unfold index. cbn [List.length].
  replace (0 <? 0) with false by reflexivity.
  replace (0 <? 0) with false by reflexivity.
  destruct (Z.of_nat (S (List.length l)) <=? 0) eqn:E.
  - apply Z.leb_le in E. lia.
  - reflexivity.
Qed.

Lemma index_last {A : Type} (l : list A) (x : A) :
  index (l ++ [x]) (-1) = Ok x.
Proof.
  unfold index. rewrite length_app. cbn [List.length].
  replace (-1 <? 0) with true by reflexivity.
  set (n := Z.of_nat (List.length l + 1)).
  assert (Hn : -1 + n = Z.of_nat (List.length l)) by (subst n; lia).
  rewrite Hn.
  destruct (Z.of_nat (List.length l) <? 0) eqn:E1;
    [apply Z.ltb_lt in E1; lia|].
  destruct (n <=? Z.of_nat (List.length l)) eqn:E2;
    [apply Z.leb_le in E2; subst n; lia|].
  cbn [orb]. rewrite Nat2Z.id, nth_error_app2, Nat.sub_diag by lia.
  reflexivity.
Qed.

Lemma index_before_last {A : Type} (l : list A) (x y : A) :
  index (l ++ [x; y]) (-2) = Ok x.
Proof.
  unfold index. rewrite length_app. cbn [List.length].
  replace (-2 <? 0) with true by reflexivity.
  set (n := Z.of_nat (List.length l + 2)).
  assert (Hn : -2 + n = Z.of_nat (List.length l)) by (subst n; lia).
  rewrite Hn.
  destruct (Z.of_nat (List.length l) <? 0) eqn:E1;
    [apply Z.ltb_lt in E1; lia|].
  destruct (n <=? Z.of_nat (List.length l)) eqn:E2;
    [apply Z.leb_le in E2; subst n; lia|].
  cbn [orb]. rewrite Nat2Z.id, nth_error_app2, Nat.sub_diag by lia.
  reflexivity.
Qed.

Lemma index_single_before_last {A : Type} (x : A) :
  index [x] (-2) = Raise IndexError.
Proof. reflexivity. Qed.

(** ** [ref_name] *)

Lemma ref_name_fragment (ref : string) :
  contains_char "#" ref = true ->
  exists fragment name,
    last_piece "#" ref fragment /\ last_piece "/" fragment name
    /\ ref_name ref = Ok name.
Proof.
  intros Hhash.
  destruct (split_many "#" ref Hhash) as (before & fragment & Href & Hfree & Hsplit).
  destruct (last_piece_exists "/" fragment) as (dirs & name & Hname & Hlast).
  exists fragment, name.
  split; [split; [exact Hfree | right; eauto]|].
  split; [exact Hlast|].
  unfold ref_name. rewrite Hsplit.
  destruct (split "#" before) as [|p ps] eqn:Hb;
    [exfalso; exact (split_not_nil "#" before Hb)|].
  replace (Nat.eqb (List.length ((p :: ps) ++ [fragment])) 1) with false.
  - rewrite index_last. cbn [bind]. rewrite Hname. apply index_last.
  - simpl. rewrite length_app. simpl.
    destruct (List.length ps + 1)%nat eqn:E; [lia | reflexivity].
Qed.

Lemma ref_name_file (ref : string) :
  contains_char "#" ref = false ->
  contains_char "." ref = true ->
  exists stem extension name,
    ref = stem ++ String "." extension
    /\ contains_char "." extension = false
    /\ last_piece "." stem name
    /\ ref_name ref = Ok name.
Proof.
  intros Hhash Hdot.
  destruct (split_many "." ref Hdot) as (stem & extension & Href & Hfree & Hsplit).
  destruct (last_piece_exists "." stem) as (dirs & name & Hname & Hlast).
  exists stem, extension, name.
  repeat (split; [assumption|]).
  unfold ref_name. rewrite (split_free "#" ref Hhash).
  cbn [List.length Nat.eqb]. rewrite index_first. cbn [bind].
  rewrite Hsplit, Hname, <- app_assoc. apply index_before_last.
Qed.

Lemma ref_name_bare (ref : string) :
  contains_char "#" ref = false ->
  contains_char "." ref = false ->
  ref_name ref = Raise IndexError.
Proof.
  intros Hhash Hdot. unfold ref_name.
  rewrite (split_free "#" ref Hhash).
  cbn [List.length Nat.eqb]. rewrite index_first. cbn [bind].
  rewrite (split_free "." ref Hdot). reflexivity.
Qed.

(** C10.  [ref_name] is partial.  With a ["#"] in the reference it returns
    the last ["/"]-delimited piece of the final fragment; without ["#"] but
    with a ["."] it returns the second-to-last ["."]-delimited piece; without
    either the indexing raises [IndexError].  So it returns a name exactly
    when the reference has a ["#"] or a ["."]. *)
Theorem ref_name_partial (ref : string) :
  (contains_char "#" ref = true ->
   exists fragment name,
     last_piece "#" ref fragment /\ last_piece "/" fragment name
     /\ ref_name ref = Ok name)
  /\ (contains_char "#" ref = false -> contains_char "." ref = true ->
      exists stem extension name,
        ref = stem ++ String "." extension
        /\ contains_char "." extension = false
        /\ last_piece "." stem name
        /\ ref_name ref = Ok name)
  /\ (contains_char "#" ref = false -> contains_char "." ref = false ->
      ref_name ref = Raise IndexError)
  /\ ((exists name, ref_name ref = Ok name)
      <-> contains_char "#" ref = true \/ contains_char "." ref = true).
Proof.
  split; [apply ref_name_fragment|].
  split; [apply ref_name_file|].
  split; [apply ref_name_bare|].
  split.
  - intros [name Hname].
    destruct (contains_char "#" ref) eqn:Hhash; [auto|].
    destruct (contains_char "." ref) eqn:Hdot; [auto|].
    rewrite (ref_name_bare ref Hhash Hdot) in Hname. discriminate.
  - intros H.
    destruct (contains_char "#" ref) eqn:Hhash.
    + destruct (ref_name_fragment ref Hhash) as (f & name & _ & _ & Hname).
      eauto.
    + destruct H as [H | H]; [discriminate|].
      destruct (ref_name_file ref Hhash H) as (st & e & name & _ & _ & _ & Hname).
      eauto.
Qed.

(** The two references of the specification, and one without ["#"] or
    ["."]. *)
Lemma ref_name_partial_witness :
  ref_name "common.yaml#/defs/Foo" = Ok "Foo"
  /\ ref_name "common.yaml" = Ok "common"
  /\ ref_name "schema" = Raise IndexError.
Proof.
  split; [reflexivity|]. split; [reflexivity|].
  exact (proj1 (proj2 (proj2 (ref_name_partial "schema")))
           eq_refl eq_refl).
Defined.

(** ** [get_subschemas] *)

Lemma combine_keys_values (props : dict) :
  combine (keys props) (values props) = props.
Proof.
  unfold keys, values.
  induction props as [|[k v] rest IH]; simpl; [reflexivity|].
  rewrite IH. reflexivity.
Qed.

Lemma keys_values_length (props : dict) :
  List.length (keys props) = List.length (values props).
Proof. unfold keys, values. rewrite !length_map. reflexivity. Qed.

Lemma labels_nth (key : string) (n i : nat) :
  (i < n)%nat ->
  nth_error (map (fun i => key ++ "[" ++ str_of_nat i ++ "]") (seq 1 n)) i
  = Some (key ++ "[" ++ str_of_nat (S i) ++ "]").
Proof.
  intros Hi. rewrite nth_error_map, nth_error_seq.
  destruct (Nat.ltb_spec i n); [reflexivity | lia].
Qed.

(** C6.  When the requested key is present, [get_subschemas] returns two
    parallel sequences of equal length: the names and the schemas of a
    [properties] map, in insertion order; [(["*"], [node])] for an
    [additionalProperties] node and two empty sequences for a boolean;
    [(["[i]"], [node])] for [items]; [([key], [node])] for [not], [if],
    [then] and [else]; the labels [key[1]] to [key[n]] with the list elements
    in order for [anyOf], [oneOf] and [allOf]. *)
Theorem get_subschemas_spec (d : dict) (key : string) (v : json) :
  lookup key d = Some v ->
  (key = "properties" ->
   forall props, v = JDict props ->
     exists labels subs,
       get_subschemas (JDict d) key = Ok (labels, subs)
       /\ List.length labels = List.length subs
       /\ combine labels subs = props)
  /\ (key = "additionalProperties" ->
      (isinstance_dict v = true ->
       get_subschemas (JDict d) key = Ok (["*"], [v]))
      /\ (forall b, v = JBool b ->
          get_subschemas (JDict d) key = Ok ([], [])))
  /\ (key = "items" -> get_subschemas (JDict d) key = Ok (["[i]"], [v]))
  /\ (In key ["not"; "if"; "then"; "else"] ->
      get_subschemas (JDict d) key = Ok ([key], [v]))
  /\ (In key ["anyOf"; "oneOf"; "allOf"] ->
      forall l, v = JList l ->
        exists labels,
          get_subschemas (JDict d) key = Ok (labels, l)
          /\ List.length labels = List.length l
          /\ forall i, (i < List.length l)%nat ->
               nth_error labels i
               = Some (key ++ "[" ++ str_of_nat (S i) ++ "]")).
Proof.
  intros Hkey.
  assert (Hget : py_getitem (JDict d) key = Ok v)
    by (unfold py_getitem; rewrite Hkey; reflexivity).
  repeat split.
  - intros -> props ->. exists (keys props), (values props).
    unfold get_subschemas. cbn [String.eqb Ascii.eqb Bool.eqb].
    rewrite Hget. cbn [bind].
    auto using keys_values_length, combine_keys_values.
  - intros Hdict. subst key. unfold get_subschemas.
    cbn [String.eqb Ascii.eqb Bool.eqb]. rewrite Hget. cbn [bind].
    rewrite Hdict. reflexivity.
  - intros b ->. subst key. unfold get_subschemas.
    cbn [String.eqb Ascii.eqb Bool.eqb]. rewrite Hget. reflexivity.
  - intros ->. unfold get_subschemas.
    cbn [String.eqb Ascii.eqb Bool.eqb]. rewrite Hget. reflexivity.
  - intros Hin. simpl in Hin.
    destruct Hin as [<- | [<- | [<- | [<- | []]]]];
      unfold get_subschemas; cbn [String.eqb Ascii.eqb Bool.eqb in_list existsb orb];
      rewrite Hget; reflexivity.
  - intros Hin l ->. simpl in Hin.
    exists (map (fun i => key ++ "[" ++ str_of_nat i ++ "]")
              (seq 1 (List.length l))).
    split; [|split].
    + destruct Hin as [<- | [<- | [<- | []]]];
        unfold get_subschemas; cbn [String.eqb Ascii.eqb Bool.eqb in_list existsb orb];
        rewrite Hget; reflexivity.
    + rewrite length_map, length_seq. reflexivity.
    + intros i Hi. apply labels_nth. exact Hi.
Qed.

Lemma get_subschemas_spec_witness :
  let members := [JDict [("type", JStr "string")]; JDict []] in
  let node := [("title", JStr "T"); ("anyOf", JList members)] in
  lookup "anyOf" node = Some (JList members)
  /\ exists labels,
       get_subschemas (JDict node) "anyOf" = Ok (labels, members)
       /\ List.length labels = List.length members
       /\ forall i, (i < List.length members)%nat ->
            nth_error labels i
            = Some ("anyOf" ++ "[" ++ str_of_nat (S i) ++ "]").
Proof.
  intros members node. split; [reflexivity|].
  exact (proj2 (proj2 (proj2 (proj2
           (get_subschemas_spec node "anyOf" (JList members) eq_refl))))
           (or_introl eq_refl) members eq_refl).
Defined.

(** ** [subschema_is_required] *)

Lemma existsb_is_str (key : string) (l : list json) :
  existsb (is_str key) l = true <-> In (JStr key) l.
Proof.
  rewrite existsb_exists. split.
  - intros (x & Hin & Hx). destruct x; try discriminate.
    simpl in Hx. apply String.eqb_eq in Hx. subst. exact Hin.
  - intros Hin. exists (JStr key). split; [exact Hin|].
    simpl. apply String.eqb_refl.
Qed.

(** C9.  For [key = "properties"] the answer is the membership of [sub_key]
    in the node's [required] sequence, false when there is none; for
    [key = "items"] it is [minItems > 0], false when [minItems] is absent or
    zero; for every other key it is false. *)
Theorem subschema_is_required_spec (d : dict) (key sub_key : string) :
  (key = "properties" ->
   (lookup "required" d = None ->
    subschema_is_required (JDict d) key sub_key = Ok false)
   /\ (forall names, lookup "required" d = Some (JList names) ->
       exists b, subschema_is_required (JDict d) key sub_key = Ok b
                 /\ (b = true <-> In (JStr sub_key) names)))
  /\ (key = "items" ->
      subschema_is_required (JDict d) key sub_key
      = array_items_are_required (JDict d)
      /\ (lookup "minItems" d = None ->
          subschema_is_required (JDict d) key sub_key = Ok false)
      /\ (forall n, lookup "minItems" d = Some (JInt n) ->
          exists b, subschema_is_required (JDict d) key sub_key = Ok b
                    /\ (b = true <-> 0 < n)))
  /\ (key <> "properties" -> key <> "items" ->
      subschema_is_required (JDict d) key sub_key = Ok false).
Proof.
  split; [|split].
  - intros ->. unfold subschema_is_required, py_get.
    cbn [String.eqb Ascii.eqb Bool.eqb]. split.
    + intros ->. reflexivity.
    + intros names ->. cbn [bind py_contains].
      eexists. split; [reflexivity|]. apply existsb_is_str.
  - intros ->. unfold subschema_is_required, array_items_are_required.
    cbn [String.eqb Ascii.eqb Bool.eqb py_contains py_getitem bind].
    unfold has_key. split; [reflexivity|]. split.
    + intros ->. reflexivity.
    + intros n ->. cbn [bind py_gt0].
      eexists. split; [reflexivity|]. apply Z.ltb_lt.
  - intros Hp Hi. unfold subschema_is_required.
    apply String.eqb_neq in Hp, Hi. rewrite Hp, Hi. reflexivity.
Qed.

Lemma subschema_is_required_spec_witness :
  let node := [("type", JStr "array"); ("minItems", JInt 2);
               ("required", JList [JStr "name"])] in
  (exists b, subschema_is_required (JDict node) "properties" "name" = Ok b
             /\ (b = true <-> In (JStr "name") [JStr "name"]))
  /\ (exists b, subschema_is_required (JDict node) "items" "" = Ok b
                /\ (b = true <-> 0 < 2))
  /\ subschema_is_required (JDict node) "not" "name" = Ok false.
Proof.
  intros node.
  pose proof (subschema_is_required_spec node "properties" "name") as Hp.
  pose proof (subschema_is_required_spec node "items" "") as Hi.
  pose proof (subschema_is_required_spec node "not" "name") as Hn.
  split; [|split].
  - exact (proj2 (proj1 Hp eq_refl) _ eq_refl).
  - exact (proj2 (proj2 (proj1 (proj2 Hi) eq_refl)) _ eq_refl).
  - apply (proj2 (proj2 Hn)); discriminate.
Defined.

(** ** [needs_separate_section]: references and composition keywords *)

(** C1.  A node with the key ["$ref"] never needs a separate section,
    whatever [max_nesting], the depth and the other keys are. *)
Theorem needs_separate_section_ref (d : dict) (max_nesting _rec : Z) :
  has_key "$ref" d = true ->
  needs_separate_section (JDict d) max_nesting _rec = Ok false.
Proof.
  intros Href. unfold needs_separate_section.
  destruct (Z.to_nat (max_nesting - _rec));
    cbn [needs_separate_section_rec py_contains bind];
    rewrite Href; reflexivity.
Qed.

Lemma needs_separate_section_ref_witness :
  needs_separate_section
    (JDict [("$ref", JStr "#/defs/a");
            ("properties", JDict [("a", JDict [("items", JDict [])])]);
            ("anyOf", JInt 3)])
    0 5
  = Ok false.
Proof. apply needs_separate_section_ref. reflexivity. Defined.

(** C3.  The docstring of [needs_separate_section] promises a separate
    section for every node with [anyOf], [oneOf] or [allOf]; the code treats
    them as any other structural keyword, so a shallow composition is
    rendered inline. *)
Theorem needs_separate_section_composition_inline :
  needs_separate_section
    (JDict [("anyOf", JList [JDict [("type", JStr "string")];
                             JDict [("type", JStr "null")]])])
    2 0
  = Ok false.
Proof. reflexivity. Qed.

(** ** [if_to_md] where it parts from the specification *)

(** C8.  The loop of [if_to_md] leaves at the first absent key: with [if]
    and [else] but no [then], nothing is emitted for [else]. *)
Theorem if_to_md_else_without_then (ext : Externals)
    (fullpath tag_prefix tag_prefix_refs : string) :
  if_to_md
    (JDict [("if", JDict [("required", JList [JStr "kind"])]);
            ("else", JDict [("required", JList [JStr "name"])])])
    fullpath tag_prefix tag_prefix_refs "if"
  = Ok (Some ("if " ++ link "if" (slug (tag_prefix ++ "-" ++ fullpath ++ "-if"))),
        true).
Proof. reflexivity. Qed.

(** ** Loops with an early [return True] *)

Lemma first_true_pure {A : Type} (body : A -> result bool) (g : A -> bool)
    (l : list A) :
  (forall x, In x l -> body x = Ok (g x)) ->
  first_true body l = Ok (existsb g l).
Proof.
  induction l as [|x rest IH]; intros Hbody; simpl; [reflexivity|].
  rewrite (Hbody x (or_introl eq_refl)). cbn [bind].
  destruct (g x); [reflexivity|].
  apply IH. intros y Hy. apply Hbody. right. exact Hy.
Qed.

Lemma first_true_ext {A : Type} (body body' : A -> result bool) (l : list A) :
  (forall x, In x l -> body x = body' x) ->
  first_true body l = first_true body' l.
Proof.
  induction l as [|x rest IH]; intros Hbody; simpl; [reflexivity|].
  rewrite (Hbody x (or_introl eq_refl)).
  destruct (body' x) as [[|]|e]; cbn [bind]; try reflexivity.
  apply IH. intros y Hy. apply Hbody. right. exact Hy.
Qed.

(** ** [examples_to_md] *)

Section ExamplesFacts.

Context {ext : Externals}.

Lemma text_can_be_inline_spec (text : string) :
  _text_can_be_inline text = true
  <-> is_substring newline text = false
      /\ Z.of_nat (String.length text) <= 50.
Proof.
  unfold _text_can_be_inline, INLINE_MAX_LINE_LENGTH.
  rewrite andb_true_iff, negb_true_iff, Z.leb_le. reflexivity.
Qed.

Lemma examples_loop_spec (examples : list json) (texts : list string)
    (all_inline : bool) :
  examples_loop examples texts all_inline
  = ((texts ++ map example_text examples)%list,
     all_inline && forallb _text_can_be_inline (map example_text examples)).
Proof.
  revert texts all_inline.
  induction examples as [|example rest IH]; intros texts all_inline; simpl.
  - rewrite app_nil_r, andb_true_r. reflexivity.
  - rewrite IH, <- app_assoc. unfold example_text at 2 4. simpl.
    f_equal.
    destruct (_text_can_be_inline _), all_inline; reflexivity.
Qed.

Lemma examples_to_md_cases (d : dict) (key : string) (examples : list json) :
  lookup key d = Some (JList examples) ->
  let texts := map example_text examples in
  examples_to_md (JDict d) key
  = if forallb _text_can_be_inline texts
    then if sum_len texts <=? 50
         then Ok (Some (comma_list texts true false), true)
         else Ok (Some (normal_list texts true), false)
    else Ok (Some (join newline (map code_block texts)), false).
Proof.
  intros Hkey texts. unfold examples_to_md.
  cbn [py_contains py_getitem bind]. unfold has_key. rewrite Hkey.
  cbn [negb bind py_iter]. rewrite examples_loop_spec.
  cbn [app andb]. fold texts. unfold INLINE_MAX_LINE_LENGTH.
  destruct (forallb _text_can_be_inline texts); [|reflexivity].
  destruct (sum_len texts <=? 50); reflexivity.
Qed.

(** C7, with the comparison the code makes.  For a list of examples the
    inlined comma-separated list (flag [True]) is returned exactly when every
    serialized example is inline-eligible and their combined length is at
    most 50; when all are inline-eligible but the combined length exceeds 50
    the result is the bulleted list (flag [False]); when some example is not
    inline-eligible, in particular when it spans several lines, every
    example is rendered as its own code block (flag [False]). *)
Theorem examples_to_md_spec (d : dict) (key : string) (examples : list json) :
  lookup key d = Some (JList examples) ->
  let texts := map example_text examples in
  (forallb _text_can_be_inline texts = true -> sum_len texts <= 50 ->
   examples_to_md (JDict d) key
   = Ok (Some (comma_list texts true false), true))
  /\ (forallb _text_can_be_inline texts = true -> 50 < sum_len texts ->
      examples_to_md (JDict d) key
      = Ok (Some (normal_list texts true), false))
  /\ (forall text, In text texts -> is_substring newline text = true ->
      examples_to_md (JDict d) key
      = Ok (Some (join newline (map code_block texts)), false))
  /\ (forallb _text_can_be_inline texts = false ->
      examples_to_md (JDict d) key
      = Ok (Some (join newline (map code_block texts)), false))
  /\ ((exists md, examples_to_md (JDict d) key = Ok (md, true))
      <-> forallb _text_can_be_inline texts = true /\ sum_len texts <= 50).
Proof.
  intros Hkey texts. rewrite (examples_to_md_cases d key examples Hkey).
  fold texts.
  assert (Hmulti : forall text, In text texts ->
            is_substring newline text = true ->
            forallb _text_can_be_inline texts = false).
  { intros text Hin Hnl.
    destruct (forallb _text_can_be_inline texts) eqn:Hall; [|reflexivity].
    rewrite forallb_forall in Hall. specialize (Hall text Hin).
    apply text_can_be_inline_spec in Hall. destruct Hall. congruence. }
  repeat split.
  - intros -> Hsum. apply Z.leb_le in Hsum. rewrite Hsum. reflexivity.
  - intros -> Hsum. apply Z.leb_gt in Hsum. rewrite Hsum. reflexivity.
  - intros text Hin Hnl. rewrite (Hmulti text Hin Hnl). reflexivity.
  - intros ->. reflexivity.
  - destruct H as [md Hmd].
    destruct (forallb _text_can_be_inline texts); [reflexivity|].
    discriminate.
  - destruct H as [md Hmd].
    destruct (forallb _text_can_be_inline texts); [|discriminate].
    destruct (sum_len texts <=? 50) eqn:Hsum; [|discriminate].
    apply Z.leb_le. exact Hsum.
  - intros [-> Hsum]. apply Z.leb_le in Hsum. rewrite Hsum. eauto.
Qed.

End ExamplesFacts.

(** Two examples of 25 characters each: every one is inline-eligible, the
    combined length is 50, which is not below 50, and the result is the
    inlined list with flag [True]. *)
Lemma examples_to_md_strict_counterexample :
  ~ (forall (ext : Externals) (d : dict) (examples : list json),
       lookup "examples" d = Some (JList examples) ->
       let texts := map example_text examples in
       (exists md, examples_to_md (JDict d) "examples" = Ok (md, true))
       <-> forallb _text_can_be_inline texts = true /\ sum_len texts < 50).
Proof.
  intros Hclaim.
  pose (examples := [JStr "https://example.org/one/1"; 
                     JStr "https://example.org/two/2"]).
  destruct (Hclaim demo_ext [("type", JStr "string"); ("examples", JList examples)]
              examples eq_refl) as [Hinline _].
  destruct Hinline as [_ Hsum].
  - eexists. reflexivity.
  - vm_compute in Hsum. discriminate.
Qed.

Lemma examples_to_md_spec_witness :
  let examples := [JStr "https://example.org/one/1";
                   JStr "https://example.org/two/2"] in
  let node := [("type", JStr "string"); ("examples", JList examples)] in
  let texts := map (@example_text demo_ext) examples in
  lookup "examples" node = Some (JList examples)
  /\ forallb _text_can_be_inline texts = true
  /\ sum_len texts <= 50
  /\ @examples_to_md demo_ext (JDict node) "examples"
     = Ok (Some (@comma_list demo_ext texts true false), true).
Proof.
  intros examples node texts.
  split; [reflexivity|]. split; [reflexivity|].
  split; [vm_compute; discriminate|].
  apply (proj1 (@examples_to_md_spec demo_ext node "examples" examples eq_refl)).
  - reflexivity.
  - vm_compute. discriminate.
Defined.

(** ** [type_to_md] *)

Lemma ref_name_raises (ref : string) (e : exn) :
  ref_name ref = Raise e -> e = IndexError.
Proof.
  intros Hraise.
  destruct (contains_char "#" ref) eqn:Hhash.
  - destruct (ref_name_fragment ref Hhash) as (f & name & _ & _ & Hname).
    congruence.
  - destruct (contains_char "." ref) eqn:Hdot.
    + destruct (ref_name_file ref Hhash Hdot)
        as (st & x & name & _ & _ & _ & Hname).
      congruence.
    + rewrite (ref_name_bare ref Hhash Hdot) in Hraise. congruence.
Qed.

Section TypeFacts.

Context {ext : Externals}.

Lemma lookup_has_key (key : string) (d : dict) :
  has_key key d = true <-> exists v, lookup key d = Some v.
Proof.
  unfold has_key. destruct (lookup key d) as [v|].
  - split; eauto.
  - split; [discriminate | intros [v Hv]; discriminate].
Qed.

Lemma type_to_md_ref (d : dict) (tag_prefix_refs : string) (ref : json) :
  lookup "$ref" d = Some ref ->
  type_to_md (JDict d) "type" tag_prefix_refs
  = name <- ref_name_of ref ;;
    Ok (Some (link name (slug (tag_prefix_refs ++ "-" ++ py_str ref))), true).
Proof.
  intros Href. unfold type_to_md, ref_link.
  cbn [py_contains py_getitem bind]. unfold has_key. rewrite Href.
  cbn [bind]. destruct (ref_name_of ref); reflexivity.
Qed.

Lemma type_to_md_no_ref (d : dict) (tag_prefix_refs : string) :
  lookup "$ref" d = None ->
  type_to_md (JDict d) "type" tag_prefix_refs
  = match lookup "type" d with
    | Some (JStr t) => Ok (Some (code t), true)
    | Some (JList l) =>
        Ok (Some (join " or " (map (fun v => code (py_str v)) l)), true)
    | None | Some JNull =>
        Ok (Some (if existsb (fun key => has_key key d) composition_or_condition
                  then "`complex`" else "`any`"), true)
    | Some (JBool _) | Some (JInt _) | Some (JDict _) => Raise ValueError
    end.
Proof.
  intros Href. unfold type_to_md.
  cbn [py_contains py_get bind]. unfold has_key at 1. rewrite Href.
  assert (Hany : first_true (py_contains (JDict d)) composition_or_condition
                 = Ok (existsb (fun key => has_key key d)
                         composition_or_condition))
    by (apply first_true_pure; reflexivity).
  unfold composition_or_condition in Hany at 1.
  destruct (lookup "type" d) as [[| | | | |]|]; cbn [bind];
    try reflexivity; rewrite Hany; cbn [bind];
    destruct (existsb _ _); reflexivity.
Qed.

(** C5, with what the code does for a null [type] and for a reference
    without a short name.  [type_to_md] raises [ValueError] exactly when the
    node has no ["$ref"] and its [type] is present, is not [None] and is
    neither a string nor a list.  With a ["$ref"] holding a string, the
    result is the link to the reference (flag [True]) when [ref_name] returns
    a name, and the [IndexError] of [ref_name] otherwise.  Without ["$ref"]:
    one code token for a string, the [" or "]-joined tokens for a list, and,
    when [type] is absent or [None], [`complex`] if one of [anyOf], [oneOf],
    [allOf], [not], [if] is present and [`any`] if none is; the flag is
    [True] in every case. *)
Theorem type_to_md_spec (d : dict) (tag_prefix_refs : string) :
  let run := type_to_md (JDict d) "type" tag_prefix_refs in
  (forall ref, lookup "$ref" d = Some (JStr ref) ->
     (forall name, ref_name ref = Ok name ->
        run = Ok (Some (link name (slug (tag_prefix_refs ++ "-" ++ ref))), true))
     /\ (ref_name ref = Raise IndexError -> run = Raise IndexError))
  /\ (lookup "$ref" d = None ->
      (forall t, lookup "type" d = Some (JStr t) ->
         run = Ok (Some (code t), true))
      /\ (forall l, lookup "type" d = Some (JList l) ->
            run = Ok (Some (join " or " (map (fun v => code (py_str v)) l)),
                      true))
      /\ (lookup "type" d = None \/ lookup "type" d = Some JNull ->
          (existsb (fun key => has_key key d) composition_or_condition = true ->
           run = Ok (Some "`complex`", true))
          /\ (existsb (fun key => has_key key d) composition_or_condition = false ->
              run = Ok (Some "`any`", true))))
  /\ (run = Raise ValueError
      <-> lookup "$ref" d = None
          /\ exists v, lookup "type" d = Some v /\ v <> JNull
                       /\ isinstance_str v = false
                       /\ isinstance_list v = false).
Proof.
  intros run. subst run. split; [|split].
  - intros ref Href. rewrite (type_to_md_ref d tag_prefix_refs _ Href).
    cbn [ref_name_of py_str]. split.
    + intros name ->. reflexivity.
    + intros ->. reflexivity.
  - intros Href. rewrite (type_to_md_no_ref d tag_prefix_refs Href).
    split; [|split].
    + intros t ->. reflexivity.
    + intros l ->. reflexivity.
    + intros Htype. split; intros ->; destruct Htype as [-> | ->]; reflexivity.
  - destruct (lookup "$ref" d) as [ref|] eqn:Href.
    + rewrite (type_to_md_ref d tag_prefix_refs _ Href). split.
      * destruct ref as [| | |r| |]; cbn [ref_name_of bind]; try discriminate.
        destruct (ref_name r) as [name|e] eqn:Hname; cbn [bind];
          [discriminate|].
        apply ref_name_raises in Hname. subst e. discriminate.
      * intros [Hnone _]. discriminate.
    + rewrite (type_to_md_no_ref d tag_prefix_refs Href). split.
      * intros Hraise. split; [reflexivity|].
        destruct (lookup "type" d) as [[| | | | |]|]; try discriminate;
          eexists; (split; [reflexivity|]); repeat split; discriminate.
      * intros [_ (v & -> & Hnull & Hstr & Hlist)].
        destruct v; try reflexivity; try discriminate. congruence.
Qed.

End TypeFacts.

(** A node whose [type] is [None] ([type: null] in YAML): the value is
    present and is neither a string nor a list, and [type_to_md] returns
    [`any`] instead of raising. *)
Lemma type_to_md_null_counterexample :
  ~ (forall (ext : Externals) (d : dict) (tag_prefix_refs : string),
       (exists e, type_to_md (JDict d) "type" tag_prefix_refs = Raise e)
       <-> has_key "$ref" d = false
           /\ exists v, lookup "type" d = Some v
                        /\ isinstance_str v = false
                        /\ isinstance_list v = false).
Proof.
  intros Hclaim.
  destruct (Hclaim demo_ext [("title", JStr "Kind"); ("type", JNull)] "")
    as [_ Hraise].
  destruct Hraise as [e He].
  - split; [reflexivity|]. exists JNull. auto.
  - discriminate.
Qed.

(** The examples of the specification, and a node of an unsupported
    [type]. *)
Lemma type_to_md_spec_witness :
  @type_to_md demo_ext (JDict [("type", JStr "string")]) "type" ""
  = Ok (Some "`string`", true)
  /\ @type_to_md demo_ext (JDict [("type", JList [JStr "string"; JStr "null"])])
       "type" ""
     = Ok (Some "`string` or `null`", true)
  /\ @type_to_md demo_ext (JDict []) "type" "" = Ok (Some "`any`", true)
  /\ @type_to_md demo_ext (JDict [("anyOf", JList [JDict []])]) "type" ""
     = Ok (Some "`complex`", true)
  /\ @type_to_md demo_ext (JDict [("$ref", JStr "common.yaml#/defs/Foo")])
       "type" "ref"
     = Ok (Some "[`Foo`](#ref-common.yaml#/defs/Foo)", true)
  /\ @type_to_md demo_ext (JDict [("type", JInt 3)]) "type" ""
     = Raise ValueError.
Proof.
  pose proof (@type_to_md_spec demo_ext [("type", JStr "string")] "") as H1.
  pose proof (@type_to_md_spec demo_ext
                [("type", JList [JStr "string"; JStr "null"])] "") as H2.
  pose proof (@type_to_md_spec demo_ext [] "") as H3.
  pose proof (@type_to_md_spec demo_ext [("anyOf", JList [JDict []])] "") as H4.
  pose proof (@type_to_md_spec demo_ext
                [("$ref", JStr "common.yaml#/defs/Foo")] "ref") as H5.
  pose proof (@type_to_md_spec demo_ext [("type", JInt 3)] "") as H6.
  cbv zeta in H1, H2, H3, H4, H5, H6.
  split; [exact (proj1 (proj1 (proj2 H1) eq_refl) _ eq_refl)|].
  split; [exact (proj1 (proj2 (proj1 (proj2 H2) eq_refl)) _ eq_refl)|].
  split; [exact (proj2 (proj2 (proj2 (proj1 (proj2 H3) eq_refl))
                   (or_introl eq_refl)) eq_refl)|].
  split; [exact (proj1 (proj2 (proj2 (proj1 (proj2 H4) eq_refl))
                   (or_introl eq_refl)) eq_refl)|].
  split; [exact (proj1 (proj1 H5 _ eq_refl) _ eq_refl)|].
  apply (proj2 (proj2 H6)). split; [reflexivity|].
  exists (JInt 3). repeat split; discriminate.
Defined.

(** ** [needs_separate_section]: nesting depth *)

Lemma existsb_false {A : Type} (f : A -> bool) (l : list A) :
  existsb f l = false <-> forall x, In x l -> f x = false.
Proof.
  induction l as [|y rest IH]; simpl.
  - split; [intros _ x [] | reflexivity].
  - rewrite orb_false_iff, IH. split.
    + intros [Hy Hrest] x [<- | Hx]; auto.
    + intros H. split; [apply H; auto | intros x Hx; apply H; auto].
Qed.

Lemma get_subschemas_children (d : dict) (key : string) (v : json)
    (subs : list json) :
  In key structural_keys ->
  lookup key d = Some v ->
  children key v = Some subs ->
  exists labels, get_subschemas (JDict d) key = Ok (labels, subs).
Proof.
  intros Hin Hkey Hsubs.
  assert (Hget : py_getitem (JDict d) key = Ok v)
    by (unfold py_getitem; rewrite Hkey; reflexivity).
  unfold structural_keys in Hin. simpl in Hin.
  repeat (destruct Hin as [<- | Hin]); try contradiction;
    unfold get_subschemas, children in *;
    cbn [String.eqb Ascii.eqb Bool.eqb in_list existsb orb] in *;
    rewrite Hget; cbn [bind];
    destruct v; inversion Hsubs; subst; cbn [isinstance_dict py_len py_iter bind];
    eauto.
Qed.

Lemma depth_zero (max_nesting _rec : Z) :
  Z.to_nat (max_nesting - _rec) = O -> (_rec >=? max_nesting) = true.
Proof. intros H. apply Z.geb_le. lia. Qed.

Lemma depth_succ (max_nesting _rec : Z) (n : nat) :
  Z.to_nat (max_nesting - _rec) = S n ->
  (_rec >=? max_nesting) = false
  /\ Z.to_nat (max_nesting - (_rec + 1)) = n.
Proof.
  intros H. split; [|lia].
  destruct (_rec >=? max_nesting) eqn:E; [|reflexivity].
  apply Z.geb_le in E. lia.
Qed.

(** On a well-formed schema the walk raises nothing, and its answer is
    whether the nesting reaches the depth limit through nodes without
    ["$ref"]. *)
Lemma needs_separate_section_rec_reaches (n : nat) :
  forall (s : json) (max_nesting _rec : Z),
    Z.to_nat (max_nesting - _rec) = n ->
    wf_upto n s = true ->
    needs_separate_section_rec n s max_nesting _rec = Ok (reaches false n s).
Proof.
  induction n as [|n IH]; intros s max_nesting _rec Hdepth Hwf;
    destruct s as [| | | | |d]; try discriminate.
  - cbn [needs_separate_section_rec py_contains bind reaches orb].
    destruct (has_key "$ref" d); [reflexivity|]. cbn [negb andb].
    apply first_true_pure. intros key _.
    unfold has_key. rewrite (depth_zero _ _ Hdepth).
    destruct (lookup key d); reflexivity.
  - cbn [needs_separate_section_rec py_contains bind reaches orb].
    destruct (has_key "$ref" d); [reflexivity|]. cbn [negb andb].
    destruct (depth_succ _ _ _ Hdepth) as [Hlimit Hnext].
    cbn [wf_upto] in Hwf. rewrite forallb_forall in Hwf.
    apply first_true_pure. intros key Hin.
    specialize (Hwf key Hin). unfold has_key. rewrite Hlimit.
    destruct (lookup key d) as [v|] eqn:Hkey; [|reflexivity].
    destruct (children key v) as [subs|] eqn:Hsubs; [|discriminate].
    destruct (get_subschemas_children d key v subs Hin Hkey Hsubs)
      as [labels ->].
    cbn [bind snd]. apply first_true_pure. intros sub Hsub.
    rewrite forallb_forall in Hwf. apply IH; auto.
Qed.

Lemma nested_within_wf (n : nat) :
  forall s, nested_within n s = true -> wf_upto n s = true.
Proof.
  induction n as [|n IH]; intros [| | | | |d] H; try discriminate;
    [reflexivity|].
  cbn [nested_within wf_upto] in *. rewrite forallb_forall in *.
  intros key Hin. specialize (H key Hin).
  destruct (lookup key d) as [v|]; [|reflexivity].
  destruct (children key v) as [subs|]; [|discriminate].
  rewrite forallb_forall in *. auto.
Qed.

Lemma nested_within_not_reaches (through_refs : bool) (n : nat) :
  forall s, nested_within n s = true -> reaches through_refs n s = false.
Proof.
  induction n as [|n IH]; intros [| | | | |d] H; try discriminate;
    cbn [nested_within reaches] in *; rewrite forallb_forall in H;
    apply andb_false_iff; right; apply existsb_false; intros key Hin;
    specialize (H key Hin);
    (destruct (lookup key d) as [v|]; [|reflexivity]); [discriminate|].
  destruct (children key v) as [subs|]; [|discriminate].
  rewrite forallb_forall in H. apply existsb_false. auto.
Qed.

Lemma reaches_shallower (through_refs : bool) (n : nat) :
  forall s, reaches through_refs (S n) s = true ->
            reaches through_refs n s = true.
Proof.
  induction n as [|n IH]; intros [| | | | |d] H; try discriminate;
    cbn [reaches] in H; apply andb_true_iff in H; destruct H as [Href H];
    apply existsb_exists in H; destruct H as (key & Hin & H);
    cbn [reaches]; rewrite Href; cbn [andb]; apply existsb_exists;
    exists key; (split; [exact Hin|]);
    (destruct (lookup key d) as [v|]; [|discriminate]); [reflexivity|].
  destruct (children key v) as [subs|]; [|discriminate].
  apply existsb_exists in H. destruct H as (sub & Hsub & H).
  apply existsb_exists. exists sub. auto.
Qed.

Lemma reaches_le (through_refs : bool) (n k : nat) (s : json) :
  (n <= k)%nat -> reaches through_refs k s = true ->
  reaches through_refs n s = true.
Proof.
  induction 1 as [|k Hle IH]; [auto|].
  intros H. apply IH, reaches_shallower, H.
Qed.

Lemma wf_upto_shallower (n : nat) :
  forall s, wf_upto (S n) s = true -> wf_upto n s = true.
Proof.
  induction n as [|n IH]; intros [| | | | |d] H; try discriminate;
    [reflexivity|].
  remember (S n) as m. cbn [wf_upto] in H. subst m.
  cbn [wf_upto]. rewrite forallb_forall in *.
  intros key Hin. specialize (H key Hin).
  destruct (lookup key d) as [v|]; [|reflexivity].
  destruct (children key v) as [subs|]; [|discriminate].
  rewrite forallb_forall in *. auto.
Qed.

Lemma wf_upto_le (n k : nat) (s : json) :
  (n <= k)%nat -> wf_upto k s = true -> wf_upto n s = true.
Proof.
  induction 1 as [|k Hle IH]; [auto|].
  intros H. apply IH, wf_upto_shallower, H.
Qed.

(** The walk never runs out of levels: more fuel than [max_nesting - _rec]
    changes nothing, and [RecursionError] is never the outcome. *)
Lemma needs_separate_section_rec_fuel (fuel : nat) :
  forall (s : json) (max_nesting _rec : Z),
    (Z.to_nat (max_nesting - _rec) <= fuel)%nat ->
    needs_separate_section_rec fuel s max_nesting _rec
    = needs_separate_section s max_nesting _rec.
Proof.
  induction fuel as [|fuel IH]; intros s max_nesting _rec Hfuel;
    unfold needs_separate_section.
  - replace (Z.to_nat (max_nesting - _rec)) with O by lia. reflexivity.
  - destruct (Z.to_nat (max_nesting - _rec)) as [|n] eqn:Hdepth.
    + cbn [needs_separate_section_rec].
      destruct (py_contains s "$ref") as [[|]|e]; cbn [bind]; try reflexivity.
      apply first_true_ext. intros key _.
      rewrite (depth_zero _ _ Hdepth). reflexivity.
    + destruct (depth_succ _ _ _ Hdepth) as [Hlimit Hnext].
      cbn [needs_separate_section_rec].
      destruct (py_contains s "$ref") as [[|]|e]; cbn [bind]; try reflexivity.
      apply first_true_ext. intros key _.
      destruct (py_contains s key) as [[|]|e]; cbn [bind]; try reflexivity.
      rewrite Hlimit.
      destruct (get_subschemas s key) as [[labels subs]|e]; cbn [bind snd];
        try reflexivity.
      apply first_true_ext. intros sub _.
      rewrite IH by lia. unfold needs_separate_section.
      rewrite Hnext. reflexivity.
Qed.

Lemma first_true_raise {A : Type} (body : A -> result bool) (l : list A)
    (e : exn) :
  first_true body l = Raise e -> exists x, In x l /\ body x = Raise e.
Proof.
  induction l as [|x rest IH]; simpl; [discriminate|].
  destruct (body x) as [[|]|e'] eqn:Hx; cbn [bind]; try discriminate.
  - intros H. destruct (IH H) as (y & Hy & Hbody). eauto.
  - intros H. inversion H. subst. eauto.
Qed.

Lemma get_subschemas_no_recursion_error (s : json) (key : string) :
  get_subschemas s key <> Raise RecursionError.
Proof.
  unfold get_subschemas, py_getitem, py_len, py_iter, bind.
  repeat break_match; congruence.
Qed.

Lemma needs_separate_section_no_recursion_error (s : json)
    (max_nesting _rec : Z) :
  needs_separate_section s max_nesting _rec <> Raise RecursionError.
Proof.
  unfold needs_separate_section.
  remember (Z.to_nat (max_nesting - _rec)) as n eqn:Hdepth.
  symmetry in Hdepth. revert s _rec Hdepth.
  induction n as [|n IH]; intros s _rec Hdepth Hraise;
    cbn [needs_separate_section_rec] in Hraise;
    (destruct (py_contains s "$ref") as [[|]|e] eqn:Href; cbn [bind] in Hraise;
     [discriminate| |destruct s; simpl in Href; congruence]);
    apply first_true_raise in Hraise; destruct Hraise as (key & _ & Hraise);
    (destruct (py_contains s key) as [[|]|e] eqn:Hkey; cbn [bind] in Hraise;
     [|discriminate|destruct s; simpl in Hkey; congruence]).
  - rewrite (depth_zero _ _ Hdepth) in Hraise. discriminate.
  - destruct (depth_succ _ _ _ Hdepth) as [Hlimit Hnext].
    rewrite Hlimit in Hraise.
    destruct (get_subschemas s key) as [[labels subs]|e] eqn:Hsubs;
      cbn [bind snd] in Hraise.
    + apply first_true_raise in Hraise. destruct Hraise as (sub & _ & Hraise).
      exact (IH sub (_rec + 1) Hnext Hraise).
    + inversion Hraise. subst e.
      exact (get_subschemas_no_recursion_error s key Hsubs).
Qed.

(** C2, with the guard on ["$ref"] the code has.  Let [n] be the number of
    levels left, [max_nesting - _rec].  A schema node whose structural
    keywords are nested strictly within [n] levels, with no composition
    keyword, does not need a separate section.  A well-formed schema node
    whose nesting reaches, through nodes without ["$ref"], a node without
    ["$ref"] at depth [n] or more that has a structural keyword, needs
    one. *)
Theorem needs_separate_section_depth (s : json) (max_nesting _rec : Z) :
  let n := Z.to_nat (max_nesting - _rec) in
  (nested_within n s = true -> no_composition n s = true ->
   needs_separate_section s max_nesting _rec = Ok false)
  /\ (forall k, (n <= k)%nat -> wf_upto k s = true ->
      reaches false k s = true ->
      needs_separate_section s max_nesting _rec = Ok true).
Proof.
  intros n. unfold needs_separate_section. fold n. split.
  - intros Hwithin _.
    rewrite (needs_separate_section_rec_reaches n s max_nesting _rec eq_refl)
      by (apply nested_within_wf; exact Hwithin).
    rewrite (nested_within_not_reaches false n s Hwithin). reflexivity.
  - intros k Hle Hwf Hreach.
    rewrite (needs_separate_section_rec_reaches n s max_nesting _rec eq_refl)
      by (exact (wf_upto_le n k s Hle Hwf)).
    rewrite (reaches_le false n k s Hle Hreach). reflexivity.
Qed.

(** The [items] of the root has ["$ref"] next to a structural keyword: the
    nesting of the root reaches depth 1 = [max_nesting] at a node with a
    structural keyword, and the root needs no separate section. *)
Lemma needs_separate_section_below_ref_counterexample :
  ~ (forall (d : dict) (max_nesting _rec : Z) (k : nat),
       has_key "$ref" d = false ->
       (Z.to_nat (max_nesting - _rec) <= k)%nat ->
       wf_upto k (JDict d) = true ->
       reaches true k (JDict d) = true ->
       needs_separate_section (JDict d) max_nesting _rec = Ok true).
Proof.
  intros Hclaim.
  specialize (Hclaim
    [("type", JStr "array");
     ("items", JDict [("$ref", JStr "#/defs/a");
                      ("items", JDict [("type", JStr "string")])])]
    1 0 1%nat eq_refl (le_n 1) eq_refl eq_refl).
  discriminate.
Qed.

Lemma needs_separate_section_depth_witness :
  let flat :=
    JDict [("type", JStr "object");
           ("properties",
            JDict [("name", JDict [("type", JStr "string")]);
                   ("tags", JDict [("type", JStr "array");
                                   ("items", JDict [("type", JStr "string")])])])] in
  let deep :=
    JDict [("type", JStr "object");
           ("properties",
            JDict [("name", JDict [("type", JStr "string")]);
                   ("rows",
                    JDict [("items",
                            JDict [("items",
                                    JDict [("items", JDict [("type", JStr "string")])])])])])] in
  (nested_within 2 flat = true /\ no_composition 2 flat = true
   /\ needs_separate_section flat 2 0 = Ok false)
  /\ (wf_upto 3 deep = true /\ reaches false 3 deep = true
      /\ needs_separate_section deep 2 0 = Ok true).
Proof.
  intros flat deep.
  split; (split; [reflexivity|]); (split; [reflexivity|]).
  - apply (proj1 (needs_separate_section_depth flat 2 0)); reflexivity.
  - apply (proj2 (needs_separate_section_depth deep 2 0) 3%nat);
      [vm_compute; lia | reflexivity | reflexivity].
Defined.

(** ** [clean_schema] *)

Lemma json_nested_ind (P : json -> Prop) :
  P JNull ->
  (forall b, P (JBool b)) ->
  (forall z, P (JInt z)) ->
  (forall t, P (JStr t)) ->
  (forall l, Forall P l -> P (JList l)) ->
  (forall d, Forall (fun kv => P (snd kv)) d -> P (JDict d)) ->
  forall s, P s.
Proof.
  intros Hnull Hbool Hint Hstr Hlist Hdict.
  fix go 1. intros [| b | z | t | l | d].
  - exact Hnull.
  - apply Hbool.
  - apply Hint.
  - apply Hstr.
  - apply Hlist. induction l as [|x rest IH]; constructor; [apply go | exact IH].
  - apply Hdict. induction d as [|kv rest IH]; constructor; [apply go | exact IH].
Qed.

Lemma in_list_In (key : string) (l : list string) :
  in_list key l = true <-> In key l.
Proof.
  unfold in_list. rewrite existsb_exists. split.
  - intros (x & Hin & Hx). apply String.eqb_eq in Hx. subst. exact Hin.
  - intros Hin. exists key. split; [exact Hin | apply String.eqb_refl].
Qed.

Lemma distinct_NoDup (l : list string) : distinct l = true -> NoDup l.
Proof.
  induction l as [|x rest IH]; simpl; intros H; constructor;
    apply andb_true_iff in H; destruct H as [Hx Hrest].
  - intros Hin. apply in_list_In in Hin. rewrite Hin in Hx. discriminate.
  - exact (IH Hrest).
Qed.

Lemma dict_set_fresh (key : string) (val : json) (clean : dict) :
  ~ In key (keys clean) -> dict_set key val clean = (clean ++ [(key, val)])%list.
Proof.
  induction clean as [|[k v] rest IH]; simpl; intros Hfresh; [reflexivity|].
  destruct (String.eqb k key) eqn:Hk.
  - apply String.eqb_eq in Hk. tauto.
  - rewrite IH by tauto. reflexivity.
Qed.

Lemma keys_snoc (clean : dict) (key : string) (val : json) (rest : list string) :
  (keys (clean ++ [(key, val)]) ++ rest)%list = (keys clean ++ key :: rest)%list.
Proof. unfold keys. rewrite map_app, <- app_assoc. reflexivity. Qed.

Lemma clean_pure_scalar (v : json) (is_prop_dict : bool) :
  isinstance_dict v || isinstance_list v = false ->
  clean_pure v is_prop_dict = v.
Proof. destruct v; simpl; intros H; try reflexivity; discriminate. Qed.

Lemma clean_dict_items_pure (is_prop_dict : bool) (d : dict) :
  Forall (fun kv => cleans_as_pure (snd kv)) d ->
  forallb (fun kv => dict_ok (snd kv)) d = true ->
  forall clean,
    NoDup (keys clean ++ keys d) ->
    clean_dict_items clean_schema is_prop_dict d clean
    = Ok (clean
          ++ flat_map
               (fun kv =>
                  if in_list (fst kv) metadata_keys && negb is_prop_dict
                  then []
                  else
                    [(fst kv,
                      clean_pure (snd kv)
                        (isinstance_dict (snd kv)
                         && String.eqb (fst kv) "properties"))])
               d)%list.
Proof.
  induction d as [|[key val] rest IH]; intros Hvals Hok clean Hdup.
  - simpl. rewrite app_nil_r. reflexivity.
  - inversion Hvals as [|kv tl Hval Hrest]. subst.
    cbn [forallb snd] in Hok. apply andb_true_iff in Hok.
    destruct Hok as [Hokval Hokrest].
    cbn [keys map fst] in Hdup. fold (keys rest) in Hdup.
    cbn [clean_dict_items flat_map fst snd].
    destruct (in_list key metadata_keys && negb is_prop_dict).
    + apply IH; auto. exact (NoDup_remove_1 _ _ _ Hdup).
    + assert (Hfresh : ~ In key (keys clean)).
      { intros Hin. apply (NoDup_remove_2 _ _ _ Hdup).
        apply in_or_app. left. exact Hin. }
      destruct (isinstance_dict val || isinstance_list val) eqn:Hcontainer.
      * rewrite (Hval _ Hcontainer Hokval). cbn [bind].
        rewrite dict_set_fresh by exact Hfresh.
        rewrite IH by (auto; rewrite keys_snoc; exact Hdup).
        rewrite <- app_assoc. reflexivity.
      * rewrite dict_set_fresh by exact Hfresh.
        rewrite IH by (auto; rewrite keys_snoc; exact Hdup).
        rewrite (clean_pure_scalar val _ Hcontainer), <- app_assoc.
        reflexivity.
Qed.

Lemma clean_list_items_pure (l : list json) :
  Forall cleans_as_pure l ->
  forallb dict_ok l = true ->
  forall clean,
    clean_list_items clean_schema l clean
    = Ok (clean ++ map (fun item => clean_pure item false) l)%list.
Proof.
  induction l as [|item rest IH]; intros Hitems Hok clean.
  - simpl. rewrite app_nil_r. reflexivity.
  - inversion Hitems as [|x tl Hitem Hrest]. subst.
    cbn [forallb] in Hok. apply andb_true_iff in Hok.
    destruct Hok as [Hokitem Hokrest].
    cbn [clean_list_items map].
    destruct (isinstance_dict item || isinstance_list item) eqn:Hcontainer.
    + rewrite (Hitem _ Hcontainer Hokitem). cbn [bind].
      rewrite IH by auto. rewrite <- app_assoc. reflexivity.
    + rewrite IH by auto.
      rewrite (clean_pure_scalar item _ Hcontainer), <- app_assoc.
      reflexivity.
Qed.

(** On a dict or a list, [clean_schema] raises nothing and returns the
    entries it keeps, in the order of the input. *)
Lemma clean_schema_pure (s : json) : cleans_as_pure s.
Proof.
  induction s as [| b | z | t | l IH | d IH] using json_nested_ind;
    intros is_prop_dict Hcontainer Hok; try discriminate.
  - cbn [clean_schema clean_pure]. cbn [dict_ok] in Hok.
    rewrite (clean_list_items_pure l IH Hok []). reflexivity.
  - cbn [clean_schema clean_pure]. cbn [dict_ok] in Hok.
    apply andb_true_iff in Hok. destruct Hok as [Hkeys Hvals].
    rewrite (clean_dict_items_pure is_prop_dict d IH Hvals [])
      by (apply distinct_NoDup; exact Hkeys).
    reflexivity.
Qed.

Lemma flat_map_pointwise {A B : Type} (f g : A -> list B) (l : list A) :
  (forall x, In x l -> f x = g x) -> flat_map f l = flat_map g l.
Proof.
  induction l as [|x rest IH]; intros H; simpl; [reflexivity|].
  rewrite (H x (or_introl eq_refl)), IH; [reflexivity|].
  intros y Hy. apply H. right. exact Hy.
Qed.

Lemma flat_map_singletons {A : Type} (f : A -> A) (l : list A) :
  (forall x, In x l -> f x = x) -> flat_map (fun x => [f x]) l = l.
Proof.
  induction l as [|x rest IH]; intros H; simpl; [reflexivity|].
  rewrite (H x (or_introl eq_refl)), IH; [reflexivity|].
  intros y Hy. apply H. right. exact Hy.
Qed.

(** The code and the wording of the specification agree wherever no
    property is itself named ["properties"]. *)
Lemma clean_pure_spec (s : json) :
  forall props_map,
    plain_properties s props_map = true ->
    clean_pure s props_map = clean_spec s props_map.
Proof.
  induction s as [| b | z | t | l IH | d IH] using json_nested_ind;
    intros props_map Hplain; try reflexivity.
  - cbn [clean_pure clean_spec]. f_equal. apply map_ext_in.
    intros item Hin. cbn [plain_properties] in Hplain.
    rewrite forallb_forall in Hplain. rewrite Forall_forall in IH. auto.
  - cbn [clean_pure clean_spec]. f_equal. apply flat_map_pointwise.
    intros [key val] Hin. cbn [plain_properties] in Hplain.
    rewrite forallb_forall in Hplain. rewrite Forall_forall in IH.
    specialize (Hplain _ Hin). specialize (IH _ Hin).
    cbn [fst snd] in *. destruct props_map; cbn [negb].
    + rewrite andb_false_r. apply andb_true_iff in Hplain.
      destruct Hplain as [Hname Hval]. apply negb_true_iff in Hname.
      rewrite Hname, (IH _ Hval). reflexivity.
    + rewrite andb_true_r.
      destruct (in_list key metadata_keys); [reflexivity|].
      cbn [orb] in Hplain. rewrite (IH _ Hplain). reflexivity.
Qed.

Lemma clean_pure_identity (allowed : list string) (s : json) :
  (forall key, In key allowed -> in_list key metadata_keys = false) ->
  forall is_prop_dict,
    only_keys allowed s = true -> clean_pure s is_prop_dict = s.
Proof.
  intros Hallowed.
  induction s as [| b | z | t | l IH | d IH] using json_nested_ind;
    intros is_prop_dict Honly; try reflexivity.
  - cbn [clean_pure]. f_equal. rewrite <- (map_id l) at 2.
    apply map_ext_in. intros item Hin. cbn [only_keys] in Honly.
    rewrite forallb_forall in Honly. rewrite Forall_forall in IH. auto.
  - cbn [clean_pure]. f_equal.
    rewrite <- (flat_map_singletons (fun kv => kv) d) at 2 by reflexivity.
    apply flat_map_pointwise. intros [key val] Hin.
    cbn [only_keys] in Honly. rewrite forallb_forall in Honly.
    rewrite Forall_forall in IH.
    specialize (Honly _ Hin). specialize (IH _ Hin). cbn [fst snd] in *.
    apply andb_true_iff in Honly. destruct Honly as [Hkey Hval].
    apply in_list_In in Hkey. rewrite (Hallowed key Hkey). cbn [andb].
    rewrite (IH _ Hval). reflexivity.
Qed.

(** X4.  A schema that has, recursively, only structural keys is returned
    unchanged. *)
Lemma clean_schema_noop (d : dict) :
  dict_ok (JDict d) = true ->
  only_keys structural_keys (JDict d) = true ->
  clean_schema (JDict d) false = Ok (JDict d).
Proof.
  intros Hok Honly. rewrite (clean_schema_pure (JDict d) false eq_refl Hok).
  f_equal. apply (clean_pure_identity structural_keys); [|exact Honly].
  intros key Hin. unfold structural_keys in Hin. simpl in Hin.
  repeat (destruct Hin as [<- | Hin]; [reflexivity|]). contradiction.
Qed.

(** X5.  Where no property is itself named ["properties"], [clean_schema] removes
    the documentation-metadata keys of every schema node, keeps every other
    key, and inside a properties map keeps every property name and cleans
    its schema as a normal schema. *)
Lemma clean_schema_refines_spec (d : dict) :
  dict_ok (JDict d) = true ->
  plain_properties (JDict d) false = true ->
  clean_schema (JDict d) false = Ok (clean_spec (JDict d) false).
Proof.
  intros Hok Hplain. rewrite (clean_schema_pure (JDict d) false eq_refl Hok).
  f_equal. apply clean_pure_spec. exact Hplain.
Qed.

(** C4.  A property that is itself named ["properties"] has its schema
    taken for a properties map: the ["title"] of that schema is kept, where
    the specification has it removed like the ["title"] of the property
    ["name"]; the properties named ["title"] and ["default"] are kept and
    their schemas cleaned. *)
Theorem clean_schema_property_named_properties :
  let schema :=
    JDict [("type", JStr "object");
           ("title", JStr "Node");
           ("properties",
            JDict [("properties",
                    JDict [("title", JStr "Props"); ("type", JStr "object")]);
                   ("name",
                    JDict [("title", JStr "Name"); ("type", JStr "string")]);
                   ("title",
                    JDict [("default", JStr "x"); ("type", JStr "string")])])] in
  clean_schema schema false
  = Ok (JDict [("type", JStr "object");
               ("properties",
                JDict [("properties",
                        JDict [("title", JStr "Props"); ("type", JStr "object")]);
                       ("name", JDict [("type", JStr "string")]);
                       ("title", JDict [("type", JStr "string")])])])
  /\ clean_spec schema false
     = JDict [("type", JStr "object");
              ("properties",
               JDict [("properties", JDict [("type", JStr "object")]);
                      ("name", JDict [("type", JStr "string")]);
                      ("title", JDict [("type", JStr "string")])])].
Proof. split; reflexivity. Qed.

(** ** More on [clean_schema]: keys, idempotence, errors; [schema_to_md] *)

Lemma clean_pure_isinstance (v : json) (is_prop_dict : bool) :
  isinstance_dict (clean_pure v is_prop_dict) = isinstance_dict v
  /\ isinstance_list (clean_pure v is_prop_dict) = isinstance_list v.
Proof. destruct v; simpl; auto. Qed.

Lemma clean_pure_dict (d : dict) (is_prop_dict : bool) :
  clean_pure (JDict d) is_prop_dict
  = JDict (flat_map (clean_entry is_prop_dict) d).
Proof. reflexivity. Qed.

Lemma keys_clean_entries (is_prop_dict : bool) (d : dict) :
  keys (flat_map (clean_entry is_prop_dict) d)
  = filter (kept is_prop_dict) (keys d).
Proof.
  unfold keys.
  induction d as [|[key val] rest IH]; [reflexivity|].
  cbn [flat_map map filter fst]. rewrite map_app, IH.
  unfold clean_entry, kept. cbn [fst snd].
  destruct (in_list key metadata_keys && negb is_prop_dict); reflexivity.
Qed.

Lemma in_list_filter (p : string -> bool) (key : string) (l : list string) :
  in_list key (filter p l) = true -> in_list key l = true.
Proof.
  rewrite !in_list_In, filter_In. tauto.
Qed.

Lemma distinct_filter (p : string -> bool) (l : list string) :
  distinct l = true -> distinct (filter p l) = true.
Proof.
  induction l as [|x rest IH]; simpl; [auto|].
  intros H. apply andb_true_iff in H. destruct H as [Hx Hrest].
  destruct (p x); [|auto]. simpl. rewrite (IH Hrest), andb_true_r.
  destruct (in_list x (filter p rest)) eqn:Hin; [|reflexivity].
  apply in_list_filter in Hin. rewrite Hin in Hx. discriminate.
Qed.

Lemma forallb_flat_map {A B : Type} (g : B -> bool) (f : A -> list B)
    (l : list A) :
  forallb g (flat_map f l) = forallb (fun x => forallb g (f x)) l.
Proof.
  induction l as [|x rest IH]; simpl; [reflexivity|].
  rewrite forallb_app, IH. reflexivity.
Qed.

Lemma dict_ok_clean_pure (s : json) :
  forall is_prop_dict,
    dict_ok s = true -> dict_ok (clean_pure s is_prop_dict) = true.
Proof.
  induction s as [| b | z | t | l IH | d IH] using json_nested_ind;
    intros is_prop_dict Hok; try reflexivity.
  - cbn [clean_pure dict_ok] in *. rewrite forallb_forall in *.
    rewrite Forall_forall in IH. intros item Hin.
    apply in_map_iff in Hin. destruct Hin as (x & <- & Hx). auto.
  - rewrite clean_pure_dict. cbn [dict_ok] in *.
    apply andb_true_iff in Hok. destruct Hok as [Hkeys Hvals].
    rewrite keys_clean_entries, (distinct_filter _ _ Hkeys). cbn [andb].
    rewrite forallb_flat_map. rewrite forallb_forall in *.
    rewrite Forall_forall in IH. intros [key val] Hin.
    specialize (Hvals _ Hin). specialize (IH _ Hin). cbn [snd] in *.
    unfold clean_entry. cbn [fst snd].
    destruct (in_list key metadata_keys && negb is_prop_dict);
      [reflexivity|].
    cbn [forallb snd]. rewrite (IH _ Hvals). reflexivity.
Qed.

Lemma clean_pure_idempotent (s : json) :
  forall is_prop_dict,
    clean_pure (clean_pure s is_prop_dict) is_prop_dict
    = clean_pure s is_prop_dict.
Proof.
  induction s as [| b | z | t | l IH | d IH] using json_nested_ind;
    intros is_prop_dict; try reflexivity.
  - cbn [clean_pure]. f_equal. rewrite map_map. apply map_ext_in.
    intros item Hin. rewrite Forall_forall in IH. auto.
  - rewrite !clean_pure_dict. f_equal.
    induction d as [|[key val] rest IHd]; [reflexivity|].
    inversion IH as [|kv tl Hval Hrest]. subst. cbn [snd] in Hval.
    cbn [flat_map]. rewrite flat_map_app, (IHd Hrest). f_equal.
    unfold clean_entry at 2 3. cbn [fst snd].
    destruct (in_list key metadata_keys && negb is_prop_dict) eqn:Hdrop;
      [reflexivity|].
    cbn [flat_map app]. unfold clean_entry. cbn [fst snd].
    rewrite Hdrop, (proj1 (clean_pure_isinstance val _)), Hval.
    reflexivity.
Qed.

Lemma clean_pure_container (s : json) (is_prop_dict : bool) :
  isinstance_dict (clean_pure s is_prop_dict)
  || isinstance_list (clean_pure s is_prop_dict)
  = isinstance_dict s || isinstance_list s.
Proof.
  destruct (clean_pure_isinstance s is_prop_dict) as [-> ->]. reflexivity.
Qed.

(** X1.  Cleaning a cleaned schema changes nothing. *)
Theorem clean_schema_idempotent (s : json) (is_prop_dict : bool) :
  isinstance_dict s || isinstance_list s = true ->
  dict_ok s = true ->
  exists clean,
    clean_schema s is_prop_dict = Ok clean
    /\ clean_schema clean is_prop_dict = Ok clean.
Proof.
  intros Hcontainer Hok. exists (clean_pure s is_prop_dict).
  split; [exact (clean_schema_pure s is_prop_dict Hcontainer Hok)|].
  rewrite (clean_schema_pure (clean_pure s is_prop_dict) is_prop_dict).
  - rewrite clean_pure_idempotent. reflexivity.
  - rewrite clean_pure_container. exact Hcontainer.
  - apply dict_ok_clean_pure. exact Hok.
Qed.

Lemma clean_schema_idempotent_witness :
  let schema :=
    JDict [("title", JStr "Node"); ("type", JStr "object");
           ("properties",
            JDict [("title", JDict [("description", JStr "d");
                                    ("enum", JList [JStr "a"; JStr "b"])])])] in
  exists clean,
    clean_schema schema false = Ok clean
    /\ clean_schema clean false = Ok clean.
Proof.
  intros schema. apply clean_schema_idempotent; reflexivity.
Defined.

(** X2.  The keys of a cleaned dict are, in the order of the input, the keys
    that are not documentation metadata; for a properties map they are all
    the keys of the input. *)
Theorem clean_schema_keys (d : dict) (is_prop_dict : bool) :
  dict_ok (JDict d) = true ->
  exists clean,
    clean_schema (JDict d) is_prop_dict = Ok (JDict clean)
    /\ keys clean
       = if is_prop_dict then keys d
         else filter (fun key => negb (in_list key metadata_keys)) (keys d).
Proof.
  intros Hok. exists (flat_map (clean_entry is_prop_dict) d).
  split.
  - rewrite (clean_schema_pure (JDict d) is_prop_dict eq_refl Hok).
    reflexivity.
  - rewrite keys_clean_entries. unfold kept. destruct is_prop_dict.
    + rewrite <- (filter_ext (fun _ => true)).
      * induction (keys d) as [|x rest IH]; simpl; congruence.
      * intros key. rewrite andb_false_r. reflexivity.
    + apply filter_ext. intros key. rewrite andb_true_r. reflexivity.
Qed.

Lemma clean_schema_keys_witness :
  let node := [("title", JStr "Node"); ("type", JStr "object");
               ("default", JDict []); ("required", JList [JStr "title"])] in
  (exists clean,
     clean_schema (JDict node) false = Ok (JDict clean)
     /\ keys clean = ["type"; "required"])
  /\ (exists clean,
        clean_schema (JDict node) true = Ok (JDict clean)
        /\ keys clean = ["title"; "type"; "default"; "required"]).
Proof.
  intros node. split.
  - exact (clean_schema_keys node false eq_refl).
  - exact (clean_schema_keys node true eq_refl).
Defined.

(** X3.  [clean_schema] raises only for a top-level argument that is neither
    a dict nor a list, and then [ValueError]; scalars inside are copied. *)
Theorem clean_schema_raises_only_scalar (s : json) (is_prop_dict : bool) :
  dict_ok s = true ->
  ((exists e, clean_schema s is_prop_dict = Raise e)
   <-> isinstance_dict s || isinstance_list s = false)
  /\ (forall e, clean_schema s is_prop_dict = Raise e -> e = ValueError).
Proof.
  intros Hok.
  destruct (isinstance_dict s || isinstance_list s) eqn:Hcontainer.
  - rewrite (clean_schema_pure s is_prop_dict Hcontainer Hok). split.
    + split; [intros [e He]; discriminate | discriminate].
    + discriminate.
  - destruct s; try discriminate; simpl; split;
      try (split; [reflexivity | eauto]); intros e He; congruence.
Qed.

Lemma clean_schema_raises_only_scalar_witness :
  exists e, clean_schema (JStr "object") false = Raise e /\ e = ValueError.
Proof.
  pose proof (clean_schema_raises_only_scalar (JStr "object") false eq_refl)
    as [Hraises Hclass].
  destruct (proj2 Hraises eq_refl) as [e He].
  exists e. split; [exact He | exact (Hclass e He)].
Defined.

Lemma clean_schema_noop_witness :
  let node :=
    [("properties",
      JDict [("items", JDict [("anyOf", JList [JDict []; JDict []])]);
             ("not", JDict [("additionalProperties", JBool false)])])] in
  dict_ok (JDict node) = true
  /\ only_keys structural_keys (JDict node) = true
  /\ clean_schema (JDict node) false = Ok (JDict node).
Proof.
  intros node. split; [reflexivity|]. split; [reflexivity|].
  apply clean_schema_noop; reflexivity.
Defined.

Lemma clean_schema_refines_spec_witness :
  let node :=
    [("title", JStr "Node"); ("type", JStr "object");
     ("properties",
      JDict [("default", JDict [("default", JInt 1); ("type", JStr "integer")]);
             ("name", JDict [("description", JStr "d"); ("type", JStr "string")])])] in
  dict_ok (JDict node) = true
  /\ plain_properties (JDict node) false = true
  /\ clean_schema (JDict node) false
     = Ok (JDict [("type", JStr "object");
                  ("properties",
                   JDict [("default", JDict [("type", JStr "integer")]);
                          ("name", JDict [("type", JStr "string")])])]).
Proof.
  intros node. split; [reflexivity|]. split; [reflexivity|].
  exact (clean_schema_refines_spec node eq_refl eq_refl).
Defined.

Section SchemaToMd.

Context {ext : Externals} {more : MoreExternals}.


End SchemaToMd.


(** ** More on [needs_separate_section] *)

(** X7.  At the depth limit ([max_nesting <= _rec]) nothing below the node
    is looked at: the answer is whether the node has no ["$ref"] and has
    some structural keyword, whatever the values under its keys are. *)
Theorem needs_separate_section_at_limit (d : dict) (max_nesting _rec : Z) :
  max_nesting <= _rec ->
  needs_separate_section (JDict d) max_nesting _rec
  = Ok (negb (has_key "$ref" d)
        && existsb (fun key => has_key key d) structural_keys).
Proof.
  intros Hlimit. unfold needs_separate_section.
  replace (Z.to_nat (max_nesting - _rec)) with O by lia.
  cbn [needs_separate_section_rec py_contains bind].
  destruct (has_key "$ref" d); [reflexivity|]. cbn [negb andb].
  apply first_true_pure. intros key _.
  replace (_rec >=? max_nesting) with true
    by (symmetry; apply Z.geb_le; lia).
  destruct (has_key key d); reflexivity.
Qed.

Lemma needs_separate_section_at_limit_witness :
  needs_separate_section
    (JDict [("type", JStr "object"); ("additionalProperties", JBool false)])
    0 0
  = Ok true
  /\ needs_separate_section
       (JDict [("type", JStr "object"); ("properties", JInt 3)]) 2 5
     = Ok true.
Proof.
  split.
  - apply (needs_separate_section_at_limit
             [("type", JStr "object"); ("additionalProperties", JBool false)]
             0 0). lia.
  - apply (needs_separate_section_at_limit
             [("type", JStr "object"); ("properties", JInt 3)] 2 5). lia.
Defined.

(** X8.  On a well-formed schema, a node that needs a separate section
    under some [max_nesting] needs one under every smaller [max_nesting]:
    raising the limit never moves a node out of line. *)
Theorem needs_separate_section_monotone (s : json)
    (max_nesting max_nesting' _rec : Z) :
  max_nesting <= max_nesting' ->
  wf_upto (Z.to_nat (max_nesting' - _rec)) s = true ->
  needs_separate_section s max_nesting' _rec = Ok true ->
  needs_separate_section s max_nesting _rec = Ok true.
Proof.
  intros Hle Hwf. unfold needs_separate_section.
  assert (Hdepth : (Z.to_nat (max_nesting - _rec)
                    <= Z.to_nat (max_nesting' - _rec))%nat) by lia.
  rewrite (needs_separate_section_rec_reaches _ s max_nesting' _rec eq_refl Hwf).
  rewrite (needs_separate_section_rec_reaches _ s max_nesting _rec eq_refl
             (wf_upto_le _ _ s Hdepth Hwf)).
  intros Hdeep. inversion Hdeep as [Hreach].
  rewrite Hreach, (reaches_le false _ _ s Hdepth Hreach). reflexivity.
Qed.

Lemma needs_separate_section_monotone_witness :
  let s :=
    JDict [("items", JDict [("items", JDict [("items", JDict [])])])] in
  wf_upto 2 s = true
  /\ needs_separate_section s 2 0 = Ok true
  /\ needs_separate_section s 1 0 = Ok true.
Proof.
  intros s. split; [reflexivity|]. split; [reflexivity|].
  apply (needs_separate_section_monotone s 1 2 0); [lia | reflexivity..].
Defined.

Lemma geb_shift (a b k : Z) : (a + k >=? b + k) = (a >=? b).
Proof.
  rewrite !Z.geb_leb.
  destruct (Z.leb_spec (b + k) (a + k)), (Z.leb_spec b a); try reflexivity; lia.
Qed.

Lemma needs_separate_section_rec_shift (k : Z) (fuel : nat) :
  forall (s : json) (max_nesting _rec : Z),
    needs_separate_section_rec fuel s (max_nesting + k) (_rec + k)
    = needs_separate_section_rec fuel s max_nesting _rec.
Proof.
  induction fuel as [|fuel IH]; intros s max_nesting _rec;
    cbn [needs_separate_section_rec];
    (destruct (py_contains s "$ref") as [[|]|e]; cbn [bind]; try reflexivity);
    apply first_true_ext; intros key _;
    (destruct (py_contains s key) as [[|]|e]; cbn [bind]; try reflexivity);
    rewrite geb_shift; [reflexivity|].
  destruct (_rec >=? max_nesting); [reflexivity|].
  destruct (get_subschemas s key) as [[labels subs]|e]; cbn [bind snd];
    [|reflexivity].
  apply first_true_ext. intros sub _.
  replace (_rec + k + 1) with (_rec + 1 + k) by lia. apply IH.
Qed.

(** X9.  Only the distance between [_rec] and [max_nesting] matters:
    starting [k] levels deeper with a limit [k] levels higher gives the same
    answer, errors included. *)
Theorem needs_separate_section_shift (s : json) (max_nesting _rec k : Z) :
  needs_separate_section s (max_nesting + k) (_rec + k)
  = needs_separate_section s max_nesting _rec.
Proof.
  unfold needs_separate_section.
  replace (max_nesting + k - (_rec + k)) with (max_nesting - _rec) by lia.
  apply needs_separate_section_rec_shift.
Qed.

(** ** More on [get_subschemas] *)

(** X10.  Asking a dict for the sub-schemas of a key it does not have
    raises [KeyError], for every key. *)
Theorem get_subschemas_missing_key (d : dict) (key : string) :
  lookup key d = None ->
  get_subschemas (JDict d) key = Raise KeyError.
Proof.
  intros Hkey.
  assert (Hget : py_getitem (JDict d) key = Raise KeyError)
    by (unfold py_getitem; rewrite Hkey; reflexivity).
  unfold get_subschemas. rewrite Hget.
  repeat break_match; reflexivity.
Qed.

Lemma get_subschemas_missing_key_witness :
  get_subschemas (JDict [("type", JStr "array")]) "items" = Raise KeyError
  /\ get_subschemas (JDict [("type", JStr "array")]) "allOf" = Raise KeyError.
Proof.
  split; apply get_subschemas_missing_key; reflexivity.
Defined.

Lemma chars_length (s : string) : List.length (chars s) = String.length s.
Proof. induction s as [|c rest IH]; simpl; congruence. Qed.

Lemma py_len_iter (v : json) (n : nat) (items : list json) :
  py_len v = Ok n -> py_iter v = Ok items -> List.length items = n.
Proof.
  destruct v; simpl; try discriminate; intros Hn Hitems;
    inversion Hn; inversion Hitems; subst.
  - apply chars_length.
  - reflexivity.
  - unfold keys. rewrite !length_map. reflexivity.
Qed.

(** X11.  Whenever [get_subschemas] returns, for whatever node and key, the
    labels and the sub-schemas are as many. *)
Theorem get_subschemas_same_length (s : json) (key : string)
    (labels : list string) (subs : list json) :
  get_subschemas s key = Ok (labels, subs) ->
  List.length labels = List.length subs.
Proof.
  unfold get_subschemas.
  destruct (py_getitem s key) as [v|e]; cbn [bind];
    [|repeat break_match; discriminate].
  repeat break_match; cbn [bind]; intros H; try discriminate;
    try (inversion H; subst; reflexivity).
  - inversion H. subst. apply keys_values_length.
  - destruct (py_len v) as [n|e'] eqn:Hlen; cbn [bind] in H; [|discriminate].
    destruct (py_iter v) as [items|e'] eqn:Hiter; cbn [bind] in H;
      [|discriminate].
    inversion H. subst.
    rewrite length_map, length_seq. symmetry.
    exact (py_len_iter v n subs Hlen Hiter).
Qed.

Lemma get_subschemas_same_length_witness :
  let node := JDict [("oneOf", JDict [("a", JNull); ("b", JNull)])] in
  get_subschemas node "oneOf" = Ok (["oneOf[1]"; "oneOf[2]"], [JStr "a"; JStr "b"])
  /\ List.length ["oneOf[1]"; "oneOf[2]"] = List.length [JStr "a"; JStr "b"].
Proof.
  intros node. split; [reflexivity|].
  exact (get_subschemas_same_length node "oneOf" _ _ eq_refl).
Defined.

(** ** [make_code_list], [enum_to_md] and [required_to_md] *)

Lemma strings_of_items_strs (l : list string) :
  strings_of_items (map JStr l) = Some l.
Proof. induction l as [|x rest IH]; simpl; [|rewrite IH]; reflexivity. Qed.

Lemma sum_len_values_strs (l : list string) :
  sum_len_values (map JStr l) = Ok (sum_len l).
Proof.
  induction l as [|x rest IH]; [reflexivity|].
  cbn [map sum_len_values py_len bind]. rewrite IH. reflexivity.
Qed.

Lemma sum_len_values_unsized (items : list json) :
  existsb unsized items = true -> sum_len_values items = Raise TypeError.
Proof.
  induction items as [|e rest IH]; simpl; [discriminate|].
  intros H. apply orb_true_iff in H.
  destruct e; simpl in *; try reflexivity;
    (destruct H as [H | H]; [discriminate|]); rewrite (IH H); reflexivity.
Qed.

Section CodeLists.

Context {ext : Externals} {more : MoreExternals}.

Lemma make_code_list_strs (l : list string) :
  make_code_list (JList (map JStr l))
  = Ok (if sum_len l <? 50
        then (comma_list l true false, true)
        else (normal_list l true, false)).
Proof.
  unfold make_code_list, md_comma_list, md_normal_list, INLINE_MAX_LINE_LENGTH.
  cbn [py_iter bind strings_of].
  rewrite sum_len_values_strs, strings_of_items_strs. cbn [bind].
  destruct (sum_len l <? 50); reflexivity.
Qed.

(** X12.  A list of strings under [enum] or [required] is inlined (flag
    [True]) when the lengths of its items add up to less than 50, and is a
    block list (flag [False]) from 50 on. *)
Theorem code_list_threshold (d : dict) (l : list string) :
  (lookup "enum" d = Some (JList (map JStr l)) ->
   enum_to_md (JDict d) "enum"
   = Ok (if sum_len l <? 50
         then (Some (comma_list l true false), true)
         else (Some (normal_list l true), false)))
  /\ (lookup "required" d = Some (JList (map JStr l)) ->
      required_to_md (JDict d) "required"
      = Ok (if sum_len l <? 50
            then (Some (comma_list l true false), true)
            else (Some (normal_list l true), false))).
Proof.
  split; intros Hkey.
  - unfold enum_to_md. cbn [py_contains py_getitem bind]. unfold has_key.
    rewrite Hkey. cbn [negb bind]. rewrite make_code_list_strs. cbn [bind].
    destruct (sum_len l <? 50); reflexivity.
  - unfold required_to_md. cbn [py_contains py_getitem bind]. unfold has_key.
    rewrite Hkey. cbn [negb bind]. rewrite make_code_list_strs. cbn [bind].
    destruct (sum_len l <? 50); reflexivity.
Qed.

(** X13.  An [enum] (or any array given to [make_code_list]) with a number,
    a boolean or [None] among its members raises [TypeError]: [len] does not
    apply to them. *)
Theorem enum_to_md_unsized_member (d : dict) (key : string)
    (members : list json) :
  lookup key d = Some (JList members) ->
  existsb unsized members = true ->
  enum_to_md (JDict d) key = Raise TypeError.
Proof.
  intros Hkey Hunsized. unfold enum_to_md, make_code_list.
  cbn [py_contains py_getitem bind]. unfold has_key. rewrite Hkey.
  cbn [negb bind py_iter]. rewrite (sum_len_values_unsized _ Hunsized).
  reflexivity.
Qed.

End CodeLists.

Lemma code_list_threshold_witness :
  let short := ["red"; "green"; "blue"] in
  let long := ["0123456789012345678901234"; "0123456789012345678901234"] in
  @enum_to_md demo_ext demo_more
    (JDict [("type", JStr "string"); ("enum", JList (map JStr short))]) "enum"
  = Ok (Some "`red`, `green`, `blue`", true)
  /\ @required_to_md demo_ext demo_more
       (JDict [("required", JList (map JStr long))]) "required"
     = Ok (Some (@normal_list demo_ext long true), false).
Proof.
  intros short long. split.
  - exact (proj1 (@code_list_threshold demo_ext demo_more
                    [("type", JStr "string"); ("enum", JList (map JStr short))]
                    short) eq_refl).
  - exact (proj2 (@code_list_threshold demo_ext demo_more
                    [("required", JList (map JStr long))] long) eq_refl).
Defined.

Lemma enum_to_md_unsized_member_witness :
  @enum_to_md demo_ext demo_more
    (JDict [("type", JStr "integer"); ("enum", JList [JInt 1; JInt 2; JInt 3])])
    "enum"
  = Raise TypeError.
Proof.
  apply (@enum_to_md_unsized_member demo_ext demo_more _ "enum"
           [JInt 1; JInt 2; JInt 3]); reflexivity.
Defined.

(** ** [additional_properties_to_md] *)

Lemma additional_kind_cases (d : dict) : additional_kind d.
Proof.
  destruct (lookup "additionalProperties" d) as [[|b|z|t|l|x]|] eqn:Hv.
  - apply AdditionalUnset. auto.
  - exact (AdditionalBool d b Hv).
  - apply (AdditionalValue d _ Hv); discriminate.
  - apply (AdditionalValue d _ Hv); discriminate.
  - apply (AdditionalValue d _ Hv); discriminate.
  - apply (AdditionalValue d _ Hv); discriminate.
  - apply AdditionalUnset. auto.
Qed.

Lemma additional_properties_unset (d : dict) (tag : option string) :
  lookup "additionalProperties" d = None
  \/ lookup "additionalProperties" d = Some JNull ->
  additional_properties_to_md (JDict d) "additionalProperties" tag
  = Ok (if existsb (fun key => has_key key d) reference_or_composition
        then (None, false)
        else if type_is_object d then (Some "`any`", true)
        else (None, false)).
Proof.
  intros Hvalue. unfold additional_properties_to_md, type_is_object.
  cbn [py_get bind].
  assert (Hany : first_true (py_contains (JDict d)) reference_or_composition
                 = Ok (existsb (fun key => has_key key d)
                         reference_or_composition))
    by (apply first_true_pure; reflexivity).
  unfold reference_or_composition in Hany at 1.
  destruct Hvalue as [-> | ->]; cbn [bind]; rewrite Hany; cbn [bind];
    (destruct (existsb _ _); [reflexivity|]);
    (destruct (lookup "type" d) as [v|]; cbn [bind is_str]; [|reflexivity]);
    destruct (is_str "object" v); reflexivity.
Qed.

Lemma additional_properties_bool (d : dict) (tag : option string) (b : bool) :
  lookup "additionalProperties" d = Some (JBool b) ->
  additional_properties_to_md (JDict d) "additionalProperties" tag
  = Ok (Some (if b then "`any`" else "`false`"), true).
Proof.
  intros Hv. unfold additional_properties_to_md. cbn [py_get bind].
  rewrite Hv. destruct b; reflexivity.
Qed.

Lemma additional_properties_value (d : dict) (tag : option string) (v : json) :
  lookup "additionalProperties" d = Some v ->
  v <> JNull -> (forall b, v <> JBool b) ->
  additional_properties_to_md (JDict d) "additionalProperties" tag
  = Ok (Some (match tag with
              | Some (String c t) => "[`true`](#" ++ String c t ++ ")"
              | _ => "[`true`]"
              end), true).
Proof.
  intros Hv Hnull Hbool. unfold additional_properties_to_md.
  cbn [py_get bind]. rewrite Hv. cbn [bind].
  destruct v as [|b| | | |]; try (destruct tag as [[|c t]|]; reflexivity).
  - congruence.
  - exfalso. exact (Hbool b eq_refl).
Qed.

(** X14.  [additional_properties_to_md] raises nothing on a dict.  It
    renders [`false`] and [`any`] for the two booleans and a link for every
    other value that is not [None].  Without a value it renders [`any`] for
    a node of type ["object"] that has none of ["$ref"], [anyOf], [oneOf],
    [allOf], [not], [if], and nothing otherwise; these are the only cases
    where it renders nothing. *)
Theorem additional_properties_to_md_spec (d : dict) (tag : option string) :
  let run := additional_properties_to_md (JDict d) "additionalProperties" tag in
  (lookup "additionalProperties" d = Some (JBool false) ->
   run = Ok (Some "`false`", true))
  /\ (lookup "additionalProperties" d = Some (JBool true) ->
      run = Ok (Some "`any`", true))
  /\ (forall v, lookup "additionalProperties" d = Some v ->
      v <> JNull -> (forall b, v <> JBool b) ->
      exists text, run = Ok (Some text, true)
                   /\ (tag = None \/ tag = Some "" -> text = "[`true`]")
                   /\ (forall t, tag = Some t -> t <> "" ->
                       text = "[`true`](#" ++ t ++ ")"))
  /\ (lookup "additionalProperties" d = None
      \/ lookup "additionalProperties" d = Some JNull ->
      existsb (fun key => has_key key d) reference_or_composition = false ->
      type_is_object d = true ->
      run = Ok (Some "`any`", true))
  /\ (run = Ok (None, false)
      <-> (lookup "additionalProperties" d = None
           \/ lookup "additionalProperties" d = Some JNull)
          /\ (existsb (fun key => has_key key d) reference_or_composition
              = true
              \/ type_is_object d = false))
  /\ exists r, run = Ok r.
Proof.
  intros run. subst run.
  split; [|split; [|split; [|split; [|split]]]].
  - intros Hv. exact (additional_properties_bool d tag false Hv).
  - intros Hv. exact (additional_properties_bool d tag true Hv).
  - intros v Hv Hnull Hbool.
    rewrite (additional_properties_value d tag v Hv Hnull Hbool).
    eexists. split; [reflexivity|]. split.
    + intros [-> | ->]; reflexivity.
    + intros t -> Ht. destruct t; [congruence | reflexivity].
  - intros Hunset Hnone Hobject.
    rewrite (additional_properties_unset d tag Hunset), Hnone, Hobject.
    reflexivity.
  - destruct (additional_kind_cases d) as [Hunset | b Hb | v Hv Hnull Hbool].
    + rewrite (additional_properties_unset d tag Hunset).
      destruct (existsb _ _); [tauto|].
      destruct (type_is_object d).
      * split; [discriminate|]. intros [_ [H | H]]; discriminate.
      * tauto.
    + rewrite (additional_properties_bool d tag b Hb).
      split; [discriminate|]. intros [[H | H] _]; congruence.
    + rewrite (additional_properties_value d tag v Hv Hnull Hbool).
      split; [discriminate|]. intros [[H | H] _]; congruence.
  - destruct (additional_kind_cases d) as [Hunset | b Hb | v Hv Hnull Hbool].
    + rewrite (additional_properties_unset d tag Hunset). eauto.
    + rewrite (additional_properties_bool d tag b Hb). eauto.
    + rewrite (additional_properties_value d tag v Hv Hnull Hbool). eauto.
Qed.

Lemma additional_properties_to_md_spec_witness :
  additional_properties_to_md
    (JDict [("additionalProperties", JBool false)]) "additionalProperties" None
  = Ok (Some "`false`", true)
  /\ additional_properties_to_md
       (JDict [("additionalProperties", JBool true)]) "additionalProperties"
       None
     = Ok (Some "`any`", true)
  /\ additional_properties_to_md
       (JDict [("type", JStr "object")]) "additionalProperties" None
     = Ok (Some "`any`", true)
  /\ exists text,
       additional_properties_to_md
         (JDict [("additionalProperties", JDict [("type", JStr "string")])])
         "additionalProperties" None
       = Ok (Some text, true)
       /\ text = "[`true`]".
Proof.
  pose proof (additional_properties_to_md_spec
                [("additionalProperties", JBool false)] None) as H1.
  pose proof (additional_properties_to_md_spec
                [("additionalProperties", JBool true)] None) as H2.
  pose proof (additional_properties_to_md_spec
                [("type", JStr "object")] None) as H3.
  pose proof (additional_properties_to_md_spec
                [("additionalProperties", JDict [("type", JStr "string")])]
                None) as H4.
  cbv zeta in H1, H2, H3, H4.
  split; [exact (proj1 H1 eq_refl)|].
  split; [exact (proj1 (proj2 H2) eq_refl)|].
  split; [exact (proj1 (proj2 (proj2 (proj2 H3)))
                   (or_introl eq_refl) eq_refl eq_refl)|].
  destruct (proj1 (proj2 (proj2 H4)) _ eq_refl) as (text & Hrun & Hnone & _);
    try discriminate.
  exists text. split; [exact Hrun | apply Hnone; auto].
Defined.

(** ** [some_of_to_md], [not_to_md] and [if_to_md] *)

Lemma combine_map_seq {A : Type} (f : nat -> A) (l : list nat) :
  combine (map f l) l = map (fun i => (f i, i)) l.
Proof. induction l as [|i rest IH]; simpl; [|rewrite IH]; reflexivity. Qed.

Section Links.

Context {ext : Externals}.

Lemma some_of_loop_sections (fullpath tag_prefix tag_prefix_refs key : string)
    (members : list json) :
  Forall (fun member => py_contains member "$ref" = Ok false) members ->
  forall idx outputs,
    some_of_loop fullpath tag_prefix tag_prefix_refs key members idx outputs
    = Ok (outputs
          ++ map (fun i =>
                    link (key ++ "[" ++ str_of_nat i ++ "]")
                      (slug (tag_prefix ++ "-" ++ fullpath ++ "-" ++ key
                             ++ "-" ++ str_of_nat i)))
               (seq idx (List.length members)))%list.
Proof.
  induction 1 as [|member rest Hmember Hrest IH]; intros idx outputs.
  - simpl. rewrite app_nil_r. reflexivity.
  - cbn [some_of_loop List.length seq map]. rewrite Hmember. cbn [bind].
    rewrite IH, <- app_assoc. reflexivity.
Qed.

(** X15.  For a composition whose members are not references,
    [some_of_to_md] makes one link per member, in order, and the link texts
    are the labels [get_subschemas] gives the members; the anchor of the
    [i]-th member ends in [-key-i], counted from 1. *)
Theorem some_of_to_md_labels (d : dict)
    (fullpath tag_prefix tag_prefix_refs key : string) (members : list json) :
  In key ["anyOf"; "oneOf"; "allOf"] ->
  lookup key d = Some (JList members) ->
  Forall (fun member => py_contains member "$ref" = Ok false) members ->
  exists labels,
    get_subschemas (JDict d) key = Ok (labels, members)
    /\ some_of_to_md (JDict d) fullpath tag_prefix tag_prefix_refs key
       = Ok (Some (comma_list
                     (map (fun label_i =>
                             link (fst label_i)
                               (slug (tag_prefix ++ "-" ++ fullpath ++ "-"
                                      ++ key ++ "-"
                                      ++ str_of_nat (snd label_i))))
                        (combine labels (seq 1 (List.length members))))
                     false false),
             true).
Proof.
  intros Hin Hkey Hmembers.
  exists (map (fun i => key ++ "[" ++ str_of_nat i ++ "]")
            (seq 1 (List.length members))).
  split.
  - simpl in Hin.
    assert (Hget : py_getitem (JDict d) key = Ok (JList members))
      by (unfold py_getitem; rewrite Hkey; reflexivity).
    destruct Hin as [<- | [<- | [<- | []]]];
      unfold get_subschemas;
      cbn [String.eqb Ascii.eqb Bool.eqb in_list existsb orb];
      rewrite Hget; reflexivity.
  - unfold some_of_to_md. cbn [py_contains py_getitem bind]. unfold has_key.
    rewrite Hkey. cbn [negb bind py_iter].
    rewrite (some_of_loop_sections _ _ _ _ _ Hmembers). cbn [bind app].
    rewrite combine_map_seq, map_map. reflexivity.
Qed.

(** X16.  A [not] whose sub-schema has ["$ref"] is rendered exactly as
    [type_to_md] renders that sub-schema, errors included. *)
Theorem not_to_md_reference (d : dict)
    (fullpath tag_prefix tag_prefix_refs : string) (sub : json) :
  lookup "not" d = Some sub ->
  py_contains sub "$ref" = Ok true ->
  not_to_md (JDict d) fullpath tag_prefix tag_prefix_refs "not"
  = type_to_md sub "type" tag_prefix_refs.
Proof.
  intros Hkey Href. unfold not_to_md, type_to_md.
  cbn [py_contains py_getitem bind]. unfold has_key. rewrite Hkey.
  cbn [negb bind]. rewrite Href. reflexivity.
Qed.

Lemma if_loop_sections (d : dict) (fullpath tag_prefix tag_prefix_refs : string)
    (todo : list string) :
  (forall key sub, In key todo -> lookup key d = Some sub ->
                   py_contains sub "$ref" = Ok false) ->
  forall output,
    if_loop (JDict d) fullpath tag_prefix tag_prefix_refs todo output
    = Ok (output
          ++ flat_map
               (fun key =>
                  [key;
                   link key
                     (slug (tag_prefix ++ "-" ++ fullpath ++ "-" ++ key))])
               (present_prefix d todo))%list.
Proof.
  induction todo as [|key rest IH]; intros Hsubs output.
  - simpl. rewrite app_nil_r. reflexivity.
  - cbn [if_loop present_prefix py_contains py_getitem bind]. unfold has_key.
    destruct (lookup key d) as [sub|] eqn:Hkey; cbn [negb bind].
    + rewrite (Hsubs key sub (or_introl eq_refl) Hkey). cbn [bind].
      rewrite IH by (intros k s Hk; apply Hsubs; right; exact Hk).
      cbn [flat_map]. rewrite <- !app_assoc. reflexivity.
    + simpl. rewrite app_nil_r. reflexivity.
Qed.

(** X17.  [if_to_md] renders the keys of [("if", "then", "else")] up to the
    first one the node lacks, each followed by its link, joined by single
    spaces: nothing without ["if"], whatever else is there, and nothing
    for [else] without [then]. *)
Theorem if_to_md_present_prefix (d : dict)
    (fullpath tag_prefix tag_prefix_refs key : string) :
  (forall k sub, In k ["if"; "then"; "else"] -> lookup k d = Some sub ->
                 py_contains sub "$ref" = Ok false) ->
  if_to_md (JDict d) fullpath tag_prefix tag_prefix_refs key
  = Ok match present_prefix d ["if"; "then"; "else"] with
       | [] => (None, false)
       | shown =>
           (Some (join " "
                    (flat_map
                       (fun k =>
                          [k;
                           link k
                             (slug (tag_prefix ++ "-" ++ fullpath ++ "-" ++ k))])
                       shown)),
            true)
       end.
Proof.
  intros Hsubs. unfold if_to_md.
  rewrite (if_loop_sections d fullpath tag_prefix tag_prefix_refs _ Hsubs).
  cbn [bind app].
  destruct (present_prefix d ["if"; "then"; "else"]); reflexivity.
Qed.

End Links.

Lemma some_of_to_md_labels_witness :
  let members := [JDict [("type", JStr "string")]; JDict [("type", JStr "null")]] in
  let node := [("anyOf", JList members)] in
  exists labels,
    get_subschemas (JDict node) "anyOf" = Ok (labels, members)
    /\ @some_of_to_md demo_ext (JDict node) "path" "tag" "ref" "anyOf"
       = Ok (Some (@comma_list demo_ext
                     (map (fun label_i =>
                             link (fst label_i)
                               (@slug demo_ext
                                  ("tag" ++ "-" ++ "path" ++ "-" ++ "anyOf"
                                   ++ "-" ++ str_of_nat (snd label_i))))
                        (combine labels (seq 1 (List.length members))))
                     false false),
             true).
Proof.
  intros members node.
  apply (@some_of_to_md_labels demo_ext node "path" "tag" "ref" "anyOf" members).
  - simpl. auto.
  - reflexivity.
  - repeat constructor.
Defined.

Lemma not_to_md_reference_witness :
  @not_to_md demo_ext
    (JDict [("not", JDict [("$ref", JStr "common.yaml#/defs/Foo")])])
    "path" "tag" "ref" "not"
  = @type_to_md demo_ext (JDict [("$ref", JStr "common.yaml#/defs/Foo")])
      "type" "ref".
Proof.
  apply (@not_to_md_reference demo_ext); reflexivity.
Defined.

Lemma if_to_md_present_prefix_witness :
  @if_to_md demo_ext
    (JDict [("then", JDict []); ("else", JDict [])]) "path" "tag" "ref" "if"
  = Ok (None, false)
  /\ @if_to_md demo_ext
       (JDict [("if", JDict []); ("then", JDict []); ("else", JDict [])])
       "path" "tag" "ref" "if"
     = Ok (Some "if [`if`](#tag-path-if) then [`then`](#tag-path-then) else [`else`](#tag-path-else)",
           true).
Proof.
  split.
  - apply (@if_to_md_present_prefix demo_ext
             [("then", JDict []); ("else", JDict [])]).
    intros k sub Hk Hsub. simpl in Hk.
    destruct Hk as [<- | [<- | [<- | []]]]; inversion Hsub; reflexivity.
  - apply (@if_to_md_present_prefix demo_ext
             [("if", JDict []); ("then", JDict []); ("else", JDict [])]).
    intros k sub Hk Hsub. simpl in Hk.
    destruct Hk as [<- | [<- | [<- | []]]]; inversion Hsub; reflexivity.
Defined.

(** ** [default_to_md] *)

Lemma is_substring_char (c : ascii) (s : string) :
  is_substring (String c EmptyString) s = contains_char c s.
Proof.
  induction s as [|b rest IH]; [reflexivity|].
  cbn [is_substring String.prefix contains_char].
  destruct (ascii_dec c b) as [<- | Hneq].
  - rewrite Ascii.eqb_refl. destruct rest; reflexivity.
  - rewrite IH. destruct (Ascii.eqb b c) eqn:E; [|reflexivity].
    apply Ascii.eqb_eq in E. congruence.
Qed.

Lemma replace_char_free (old new : ascii) (s : string) :
  old <> new -> contains_char old (replace_char old new s) = false.
Proof.
  intros Hneq. induction s as [|c rest IH]; [reflexivity|].
  cbn [replace_char contains_char]. rewrite IH, orb_false_r.
  destruct (Ascii.eqb c old) eqn:E; [|exact E].
  apply Ascii.eqb_neq. congruence.
Qed.

Lemma replace_char_length (old new : ascii) (s : string) :
  String.length (replace_char old new s) = String.length s.
Proof. induction s as [|c rest IH]; simpl; congruence. Qed.

Section Defaults.

Context {ext : Externals} {more : MoreExternals}.

(** X18.  Without [default], a [default_auto] string is rendered as prose:
    stripped, its line breaks replaced one for one by spaces, with no code
    formatting; the text has no line break left, so the inline flag only
    says whether it is at most 50 characters long. *)
Theorem default_to_md_auto (d : dict) (key key_auto s : string) :
  lookup key d = None ->
  lookup key_auto d = Some (JStr s) ->
  exists text,
    default_to_md (JDict d) key key_auto
    = Ok (Some text, Z.of_nat (String.length text) <=? 50)
    /\ text = replace_char "010" " " (strip s)
    /\ contains_char "010" text = false
    /\ String.length text = String.length (strip s).
Proof.
  intros Hkey Hauto. exists (replace_char "010" " " (strip s)).
  assert (Hfree : contains_char "010" (replace_char "010" " " (strip s)) = false)
    by (apply replace_char_free; discriminate).
  split; [|split; [reflexivity | split; [exact Hfree|]]].
  - unfold default_to_md. cbn [py_contains py_getitem bind]. unfold has_key.
    rewrite Hkey, Hauto. cbn [bind].
    unfold _text_can_be_inline, INLINE_MAX_LINE_LENGTH.
    change newline with (String "010"%char EmptyString).
    rewrite is_substring_char, Hfree. reflexivity.
  - apply replace_char_length.
Qed.

End Defaults.

Lemma default_to_md_auto_witness :
  let s := "the name of" ++ newline ++ "the repository" in
  exists text,
    @default_to_md demo_ext demo_more
      (JDict [("type", JStr "string"); ("default_auto", JStr s)])
      "default" "default_auto"
    = Ok (Some text, Z.of_nat (String.length text) <=? 50)
    /\ text = replace_char "010" " " (@strip demo_more s)
    /\ contains_char "010" text = false
    /\ String.length text = String.length (@strip demo_more s).
Proof.
  intros s.
  apply (@default_to_md_auto demo_ext demo_more
           [("type", JStr "string"); ("default_auto", JStr s)]
           "default" "default_auto" s); reflexivity.
Defined.

(** ** The renderers render nothing exactly when their key is missing *)

Section Absent.

Context {ext : Externals} {more : MoreExternals}.

Ltac absent_when_missing Hkey :=
  cbn [py_contains bind]; rewrite Hkey; reflexivity.

Ltac present_when_found Hkey H :=
  cbn [py_contains bind] in H; rewrite Hkey in H; cbn [negb] in H;
  unfold bind in H; repeat break_match; congruence.

(** X19.  For [examples_to_md], [enum_to_md], [required_to_md],
    [scalar_to_md], [not_to_md] and [some_of_to_md] on a dict: without the
    key the result is [(None, False)], and with the key no result has an
    absent text. *)
Theorem renderers_absent_iff_missing (d : dict)
    (key fullpath tag_prefix tag_prefix_refs : string) :
  (has_key key d = false ->
   examples_to_md (JDict d) key = Ok (None, false)
   /\ enum_to_md (JDict d) key = Ok (None, false)
   /\ required_to_md (JDict d) key = Ok (None, false)
   /\ scalar_to_md (JDict d) key = Ok (None, false)
   /\ not_to_md (JDict d) fullpath tag_prefix tag_prefix_refs key
      = Ok (None, false)
   /\ some_of_to_md (JDict d) fullpath tag_prefix tag_prefix_refs key
      = Ok (None, false))
  /\ (has_key key d = true ->
      forall flag,
        examples_to_md (JDict d) key <> Ok (None, flag)
        /\ enum_to_md (JDict d) key <> Ok (None, flag)
        /\ required_to_md (JDict d) key <> Ok (None, flag)
        /\ scalar_to_md (JDict d) key <> Ok (None, flag)
        /\ not_to_md (JDict d) fullpath tag_prefix tag_prefix_refs key
           <> Ok (None, flag)
        /\ some_of_to_md (JDict d) fullpath tag_prefix tag_prefix_refs key
           <> Ok (None, flag)).
Proof.
  split; intros Hkey.
  - repeat split.
    + unfold examples_to_md. absent_when_missing Hkey.
    + unfold enum_to_md. absent_when_missing Hkey.
    + unfold required_to_md. absent_when_missing Hkey.
    + unfold scalar_to_md. absent_when_missing Hkey.
    + unfold not_to_md. absent_when_missing Hkey.
    + unfold some_of_to_md. absent_when_missing Hkey.
  - intros flag. repeat split; intros H.
    + unfold examples_to_md in H. present_when_found Hkey H.
    + unfold enum_to_md in H. present_when_found Hkey H.
    + unfold required_to_md in H. present_when_found Hkey H.
    + unfold scalar_to_md in H. present_when_found Hkey H.
    + unfold not_to_md in H. present_when_found Hkey H.
    + unfold some_of_to_md in H. present_when_found Hkey H.
Qed.

End Absent.

Lemma renderers_absent_iff_missing_witness :
  @examples_to_md demo_ext (JDict [("type", JStr "string")]) "examples"
  = Ok (None, false)
  /\ @scalar_to_md demo_ext
       (JDict [("type", JStr "string"); ("minLength", JInt 1)]) "minLength"
     <> Ok (None, true).
Proof.
  split.
  - exact (proj1 (proj1 (@renderers_absent_iff_missing demo_ext demo_more
                           [("type", JStr "string")] "examples" "" "" "")
                    eq_refl)).
  - exact (proj1 (proj2 (proj2 (proj2
             (proj2 (@renderers_absent_iff_missing demo_ext demo_more
                       [("type", JStr "string"); ("minLength", JInt 1)]
                       "minLength" "" "" "")
                eq_refl true))))).
Defined.
